(** * vikAISkills: the two command-line tools of [browser_tools]

    A shallow embedding of
      - [browser_tools/azure_tools/azure_automation.py], the wrapper around
        the [az] command-line tool, and
      - [browser_tools/browser_tool.py], the wrapper around Playwright,
    followed by the properties their specification states about them.

    Both programs are glue around things that live outside the repository:
    [subprocess.run], [json.loads], [json.dumps], [repr], the clock and the
    Playwright driver.  Each tool takes them from a [host] record, about
    which nothing is assumed, so a theorem holds for whatever they answer.
    Everything the repository itself decides (the argument vectors, the
    classification of an outcome, the dispatch tables, the arity guards,
    the slices, the printed lines) is defined below, function by function,
    under the names the source uses.

    Layout: [Py] (values), [Azure] and [Browser] (the two programs),
    [Spec] (the vocabulary of the specification), [Sim] (simulated hosts
    for the worked examples), then the properties: [AzureInvoker],
    [AzureHandlers], [Dispatch], [BrowserOps] for the statements numbered
    C, and [AzureProcesses], [AzureComposition], [AzureCommandLine],
    [AzureRawOutput], [AzureReports], [BrowserRuns], [BrowserTrace],
    [BrowserResults] for the further ones, numbered X. *)

From Stdlib Require Import String Ascii List ZArith Lia Bool Floats.
Import ListNotations.
Set Warnings "-register-all,-abstract-large-number".
Local Open Scope list_scope.
Local Open Scope string_scope.

(** ** Python values and the handful of operations the tools use *)

Module Py.

(** The values that [json.loads], [page.evaluate] and the dictionaries the
    tools build can hold.  A [str] is a Rocq [string], one [ascii] per
    character (the Latin-1 range); the pictographs in the messages of the
    source are spelled by their UTF-8 bytes and are never sliced.  A [dict]
    keeps its insertion order, as Python's does, and its keys are strings
    (the only keys JSON and the tools have). *)
Inductive pyval : Type :=
| PNone
| PBool (b : bool)
| PInt (n : Z)
| PFloat (x : float)
| PStr (s : string)
| PList (xs : list pyval)
| PDict (kvs : list (string * pyval)).

(** The exceptions the tools can leave uncaught. *)
Inductive exn : Type :=
| TypeError
| AttributeError
| KeyError (key : string)
| LibraryError (msg : string).

Definition result (A : Type) : Type := (exn + A)%type.

Definition nl : string := String (ascii_of_nat 10) EmptyString.

(** [sep.join(parts)]. *)
Definition join (sep : string) (parts : list string) : string :=
  String.concat sep parts.

(** [s * n] for a string [s]. *)
Fixpoint str_mul (s : string) (n : nat) : string :=
  match n with
  | O => EmptyString
  | S k => s ++ str_mul s k
  end.

(** [s[:n]] for a string: the first [n] characters, all of [s] when it is
    shorter. *)
Fixpoint str_take (n : nat) (s : string) : string :=
  match n, s with
  | O, _ => EmptyString
  | S _, EmptyString => EmptyString
  | S k, String c rest => String c (str_take k rest)
  end.

(** [str.lower] on the Latin-1 range: A-Z, and the accented capitals
    U+00C0 to U+00DE apart from the multiplication sign U+00D7. *)
Definition lower_char (c : ascii) : ascii :=
  let n := nat_of_ascii c in
  if ((65 <=? n) && (n <=? 90))%nat then ascii_of_nat (n + 32)
  else if ((192 <=? n) && (n <=? 222) && negb (n =? 215))%nat
       then ascii_of_nat (n + 32)
  else c.

Fixpoint lower (s : string) : string :=
  match s with
  | EmptyString => EmptyString
  | String c rest => String (lower_char c) (lower rest)
  end.

(** [str.isspace] of one character, on the same range. *)
Definition isspace (c : ascii) : bool :=
  let n := nat_of_ascii c in
  (((9 <=? n) && (n <=? 13)) || ((28 <=? n) && (n <=? 32))
   || (n =? 133) || (n =? 160))%nat.

(** The truth value of [s.strip()]: some character is not white space. *)
Fixpoint strip_nonempty (s : string) : bool :=
  match s with
  | EmptyString => false
  | String c rest => negb (isspace c) || strip_nonempty rest
  end.

(** [bool(v)]. *)
Definition truthy (v : pyval) : bool :=
  match v with
  | PNone => false
  | PBool b => b
  | PInt n => negb (n =? 0)%Z
  | PFloat x => negb (PrimFloat.eqb x 0%float)
  | PStr s => negb (s =? "")
  | PList xs => match xs with [] => false | _ => true end
  | PDict kvs => match kvs with [] => false | _ => true end
  end.

(** [v == s] for a string literal [s]. *)
Definition eq_str (v : pyval) (s : string) : bool :=
  match v with
  | PStr t => t =? s
  | _ => false
  end.

Fixpoint assoc {A : Type} (k : string) (kvs : list (string * A)) : option A :=
  match kvs with
  | [] => None
  | (k', v) :: rest => if k' =? k then Some v else assoc k rest
  end.

(** [k in d] for a dictionary [d]. *)
Definition has_key (k : string) (d : pyval) : bool :=
  match d with
  | PDict kvs => match assoc k kvs with Some _ => true | None => false end
  | _ => false
  end.

(** [v[k]] for a string key: only a [dict] can be indexed by one. *)
Definition getitem (v : pyval) (k : string) : result pyval :=
  match v with
  | PDict kvs =>
      match assoc k kvs with
      | Some x => inr x
      | None => inl (KeyError k)
      end
  | _ => inl TypeError
  end.

(** [v.get(k, default)]: only a [dict] has the method. *)
Definition get (v : pyval) (k : string) (default : pyval) : result pyval :=
  match v with
  | PDict kvs =>
      match assoc k kvs with
      | Some x => inr x
      | None => inr default
      end
  | _ => inl AttributeError
  end.

(** What [for x in v] runs over: the items of a list, the characters of a
    string, the keys of a dictionary. *)
Definition iterate (v : pyval) : result (list pyval) :=
  match v with
  | PList xs => inr xs
  | PStr s => inr (map (fun c => PStr (String c EmptyString)) (list_ascii_of_string s))
  | PDict kvs => inr (map (fun kv => PStr (fst kv)) kvs)
  | _ => inl TypeError
  end.

(** [v[:n]]: strings and lists can be sliced, nothing else can. *)
Definition slice_to (n : nat) (v : pyval) : result pyval :=
  match v with
  | PStr s => inr (PStr (str_take n s))
  | PList xs => inr (PList (firstn n xs))
  | _ => inl TypeError
  end.

End Py.

(** ** The cloud tool: [azure_tools/azure_automation.py] *)

Module Azure.
Import Py.

(** One call of [subprocess.run(cmd, capture_output=True, text=True,
    timeout=...)]: the argument vector and the timeout in seconds. *)
Record spawn : Type := { argv : list string; timeout : Z }.

(** How such a call ends: the process completed (exit code, captured
    standard output and error), [subprocess.TimeoutExpired] was raised, or
    any other exception was (the executable is missing, say), with the
    text [str(e)] gives. *)
Inductive run_result : Type :=
| Completed (returncode : Z) (stdout stderr : string)
| TimeoutExpired
| RunRaised (msg : string).

(** How [json.loads] ends: a value, [json.JSONDecodeError], or another
    exception ([RecursionError] on deep nesting, [ValueError] on an integer
    past the digit limit), with the text [str(e)] gives. *)
Inductive loads_result : Type :=
| Loaded (v : pyval)
| JSONDecodeError
| LoadsRaised (msg : string).

(** What the tool does not define itself.  [subprocess_run] is asked with
    the calls made so far, so that two calls may be answered differently. *)
Record host : Type := {
  subprocess_run : list spawn -> spawn -> run_result;
  json_loads : string -> loads_result;
  repr : pyval -> string
}.

(** What a run of the tool leaves behind: the lines it printed and the
    processes it started, both oldest first. *)
Record world : Type := { printed : list string; spawned : list spawn }.

Definition start : world := {| printed := []; spawned := [] |}.

(** A computation that prints, starts processes, and returns a value or
    stops at an uncaught exception. *)
Definition M (A : Type) : Type := world -> result A * world.

Definition ret {A : Type} (a : A) : M A := fun w => (inr a, w).

Definition bind {A B : Type} (c : M A) (k : A -> M B) : M B :=
  fun w =>
    match c w with
    | (inl e, w') => (inl e, w')
    | (inr a, w') => k a w'
    end.

Definition lift {A : Type} (r : result A) : M A := fun w => (r, w).

Notation "x <- c1 ;; c2" := (bind c1 (fun x => c2))
  (at level 61, c1 at next level, right associativity).
Notation "c1 ;; c2" := (bind c1 (fun _ => c2))
  (at level 61, right associativity).

(** [print(line)]. *)
Definition print (line : string) : M unit :=
  fun w => (inr tt, {| printed := (printed w ++ [line])%list; spawned := spawned w |}).

(** [for x in xs: body(x)]. *)
Fixpoint for_each (xs : list pyval) (body : pyval -> M unit) : M unit :=
  match xs with
  | [] => ret tt
  | x :: rest => body x ;; for_each rest body
  end.

Definition success_of (data : pyval) : pyval :=
  PDict [("data", data); ("success", PBool true)].

Definition failure_of (message : string) : pyval :=
  PDict [("error", PStr message); ("success", PBool false)].

Section Tool.

Variable h : host.

(** [str(v)] as an f-string inserts it: a string as it is, anything else
    by its [repr]. *)
Definition fmt (v : pyval) : string :=
  match v with
  | PStr s => s
  | _ => repr h v
  end.

(** [subprocess.run(cmd, ..., timeout=seconds)]. *)
Definition run (cmd : list string) (seconds : Z) : M run_result :=
  fun w =>
    let call := {| argv := cmd; timeout := seconds |} in
    (inr (subprocess_run h (spawned w) call),
     {| printed := printed w; spawned := (spawned w ++ [call])%list |}).

(** [run_az_command(args, parse_json)]: the [try] block and its four
    handlers. *)
Definition run_az_command (args : list string) (parse_json : bool) : M pyval :=
  let cmd := (("az" :: args) ++ (if parse_json then ["-o"; "json"] else []))%list in
  r <- run cmd 120 ;;
  match r with
  | Completed returncode stdout stderr =>
      if negb (returncode =? 0)%Z then ret (failure_of stderr)
      else if parse_json && strip_nonempty stdout then
        match json_loads h stdout with
        | Loaded v => ret (success_of v)
        | JSONDecodeError => ret (success_of (PStr stdout))
        | LoadsRaised msg => ret (failure_of msg)
        end
      else ret (success_of (PStr stdout))
  | TimeoutExpired => ret (failure_of "Command timed out")
  | RunRaised msg => ret (failure_of msg)
  end.

Definition list_subscriptions : M pyval :=
  result <- run_az_command ["account"; "list"] true ;;
  ok <- lift (getitem result "success") ;;
  if truthy ok then
    print (nl ++ "📋 Azure Subscriptions:") ;;
    print (str_mul "-" 60) ;;
    data <- lift (getitem result "data") ;;
    subs <- lift (iterate data) ;;
    for_each subs (fun sub =>
      state <- lift (get sub "state" PNone) ;;
      let status := if eq_str state "Enabled" then "✓" else "✗" in
      is_default <- lift (get sub "isDefault" PNone) ;;
      let default := if truthy is_default then " (DEFAULT)" else "" in
      name <- lift (getitem sub "name") ;;
      print ("  " ++ status ++ " " ++ fmt name ++ default) ;;
      id <- lift (getitem sub "id") ;;
      print ("    ID: " ++ fmt id)) ;;
    lift (getitem result "data")
  else
    e <- lift (get result "error" PNone) ;;
    print ("❌ Error: " ++ fmt e) ;;
    ret result.

Definition login : M pyval :=
  print "Opening browser for Azure login..." ;;
  result <- run_az_command ["login"] false ;;
  ok <- lift (getitem result "success") ;;
  if truthy ok then
    print "✅ Login successful!" ;;
    list_subscriptions
  else
    e <- lift (get result "error" PNone) ;;
    print ("❌ Login failed: " ++ fmt e) ;;
    ret result.

Definition set_subscription (subscription_id : string) : M pyval :=
  result <- run_az_command ["account"; "set"; "--subscription"; subscription_id] true ;;
  ok <- lift (getitem result "success") ;;
  (if truthy ok then print ("✅ Active subscription set to: " ++ subscription_id)
   else ret tt) ;;
  ret result.

Definition list_resource_groups : M pyval :=
  result <- run_az_command ["group"; "list"] true ;;
  ok <- lift (getitem result "success") ;;
  if truthy ok then
    print (nl ++ "📁 Resource Groups:") ;;
    print (str_mul "-" 60) ;;
    data <- lift (getitem result "data") ;;
    groups <- lift (iterate data) ;;
    for_each groups (fun rg =>
      name <- lift (getitem rg "name") ;;
      location <- lift (getitem rg "location") ;;
      print ("  • " ++ fmt name ++ " (" ++ fmt location ++ ")")) ;;
    lift (getitem result "data")
  else ret result.

(** [resource_group] is [None] or a string; the empty string counts as
    absent, as [if resource_group:] reads it. *)
Definition list_resources (resource_group : option string) : M pyval :=
  let given := match resource_group with
               | Some g => if g =? "" then None else Some g
               | None => None
               end in
  let args := (["resource"; "list"]
               ++ match given with
                  | Some g => ["--resource-group"; g]
                  | None => []
                  end)%list in
  result <- run_az_command args true ;;
  ok <- lift (getitem result "success") ;;
  if truthy ok then
    print (nl ++ "🔧 Resources"
              ++ match given with Some g => " in " ++ g | None => "" end ++ ":") ;;
    print (str_mul "-" 60) ;;
    data <- lift (getitem result "data") ;;
    resources <- lift (iterate data) ;;
    for_each resources (fun res =>
      name <- lift (getitem res "name") ;;
      print ("  • " ++ fmt name) ;;
      type <- lift (getitem res "type") ;;
      print ("    Type: " ++ fmt type) ;;
      location <- lift (getitem res "location") ;;
      print ("    Location: " ++ fmt location) ;;
      print "") ;;
    lift (getitem result "data")
  else ret result.

(** *** API keys *)

Definition get_cognitive_keys (resource_name resource_group : string) : M pyval :=
  result <- run_az_command
              ["cognitiveservices"; "account"; "keys"; "list";
               "--name"; resource_name;
               "--resource-group"; resource_group] true ;;
  ok <- lift (getitem result "success") ;;
  if truthy ok then
    keys <- lift (getitem result "data") ;;
    print (nl ++ "🔑 API Keys for " ++ resource_name ++ ":") ;;
    print (str_mul "-" 60) ;;
    key1 <- lift (get keys "key1" (PStr "N/A")) ;;
    shown1 <- lift (slice_to 20 key1) ;;
    print ("  Key1: " ++ fmt shown1 ++ "...") ;;
    key2 <- lift (get keys "key2" (PStr "N/A")) ;;
    shown2 <- lift (slice_to 20 key2) ;;
    print ("  Key2: " ++ fmt shown2 ++ "...") ;;
    ret keys
  else
    e <- lift (get result "error" PNone) ;;
    print ("❌ Error: " ++ fmt e) ;;
    ret result.

Definition get_storage_keys (account_name resource_group : string) : M pyval :=
  result <- run_az_command
              ["storage"; "account"; "keys"; "list";
               "--account-name"; account_name;
               "--resource-group"; resource_group] true ;;
  ok <- lift (getitem result "success") ;;
  if truthy ok then
    keys <- lift (getitem result "data") ;;
    print (nl ++ "🔑 Storage Keys for " ++ account_name ++ ":") ;;
    print (str_mul "-" 60) ;;
    each <- lift (iterate keys) ;;
    for_each each (fun key =>
      key_name <- lift (getitem key "keyName") ;;
      value <- lift (getitem key "value") ;;
      shown <- lift (slice_to 20 value) ;;
      print ("  " ++ fmt key_name ++ ": " ++ fmt shown ++ "...")) ;;
    ret keys
  else ret result.

Definition get_openai_keys (resource_name resource_group : string) : M pyval :=
  get_cognitive_keys resource_name resource_group.

(** The [type_map] of [get_keys], in the order the source lists it. *)
Definition type_map : list (string * (string -> string -> M pyval)) :=
  [("cognitive", get_cognitive_keys);
   ("openai", get_openai_keys);
   ("storage", get_storage_keys)].

Definition get_keys (resource_type resource_name resource_group : string) : M pyval :=
  match assoc (lower resource_type) type_map with
  | Some func => func resource_name resource_group
  | None =>
      print ("❌ Unknown resource type: " ++ resource_type) ;;
      print ("   Supported types: " ++ join ", " (map fst type_map)) ;;
      ret (PDict [("error", PStr "Unknown resource type")])
  end.

(** *** Creating resources.  Python's default arguments are written out
    by the callers: [location="eastus"], [kind="CognitiveServices"],
    [sku="S0"] and [sku="Standard_LRS"]. *)

Definition create_resource_group (name location : string) : M pyval :=
  result <- run_az_command
              ["group"; "create"; "--name"; name; "--location"; location] true ;;
  ok <- lift (getitem result "success") ;;
  (if truthy ok
   then print ("✅ Resource group '" ++ name ++ "' created in " ++ location)
   else ret tt) ;;
  ret result.

Definition create_cognitive_service
    (name resource_group kind sku location : string) : M pyval :=
  result <- run_az_command
              ["cognitiveservices"; "account"; "create";
               "--name"; name;
               "--resource-group"; resource_group;
               "--kind"; kind;
               "--sku"; sku;
               "--location"; location;
               "--yes"] true ;;
  ok <- lift (getitem result "success") ;;
  if truthy ok then
    print ("✅ Cognitive Service '" ++ name ++ "' (" ++ kind ++ ") created") ;;
    get_cognitive_keys name resource_group
  else ret result.

Definition create_storage_account
    (name resource_group sku location : string) : M pyval :=
  result <- run_az_command
              ["storage"; "account"; "create";
               "--name"; name;
               "--resource-group"; resource_group;
               "--sku"; sku;
               "--location"; location] true ;;
  ok <- lift (getitem result "success") ;;
  if truthy ok then
    print ("✅ Storage account '" ++ name ++ "' created") ;;
    get_storage_keys name resource_group
  else ret result.

Definition create_openai_service (name resource_group location : string) : M pyval :=
  create_cognitive_service name resource_group "OpenAI" "S0" location.

(** *** Deployments *)

Definition list_openai_deployments (resource_name resource_group : string) : M pyval :=
  result <- run_az_command
              ["cognitiveservices"; "account"; "deployment"; "list";
               "--name"; resource_name;
               "--resource-group"; resource_group] true ;;
  ok <- lift (getitem result "success") ;;
  if truthy ok then
    print (nl ++ "🤖 Deployments for " ++ resource_name ++ ":") ;;
    print (str_mul "-" 60) ;;
    data <- lift (getitem result "data") ;;
    deployments <- lift (iterate data) ;;
    for_each deployments (fun dep =>
      name <- lift (getitem dep "name") ;;
      print ("  • " ++ fmt name) ;;
      properties <- lift (get dep "properties" (PDict [])) ;;
      model <- lift (get properties "model" (PDict [])) ;;
      model_name <- lift (get model "name" (PStr "N/A")) ;;
      print ("    Model: " ++ fmt model_name)) ;;
    lift (getitem result "data")
  else ret result.

Definition create_openai_deployment
    (resource_name resource_group deployment_name model_name model_version : string)
    : M pyval :=
  result <- run_az_command
              ["cognitiveservices"; "account"; "deployment"; "create";
               "--name"; resource_name;
               "--resource-group"; resource_group;
               "--deployment-name"; deployment_name;
               "--model-name"; model_name;
               "--model-version"; model_version;
               "--model-format"; "OpenAI"] true ;;
  ok <- lift (getitem result "success") ;;
  (if truthy ok
   then print ("✅ Deployment '" ++ deployment_name ++ "' (" ++ model_name ++ ") created")
   else ret tt) ;;
  ret result.

(** *** Account *)

Definition get_account_info : M pyval :=
  result <- run_az_command ["account"; "show"] true ;;
  ok <- lift (getitem result "success") ;;
  if truthy ok then
    acc <- lift (getitem result "data") ;;
    print (nl ++ "👤 Current Azure Account:") ;;
    print (str_mul "-" 60) ;;
    name <- lift (getitem acc "name") ;;
    print ("  Subscription: " ++ fmt name) ;;
    id <- lift (getitem acc "id") ;;
    print ("  ID: " ++ fmt id) ;;
    tenant <- lift (getitem acc "tenantId") ;;
    print ("  Tenant: " ++ fmt tenant) ;;
    user <- lift (get acc "user" (PDict [])) ;;
    user_name <- lift (get user "name" (PStr "N/A")) ;;
    print ("  User: " ++ fmt user_name) ;;
    ret acc
  else ret result.

(** *** The command line *)

(** The module's docstring, which [main] prints when no command is given. *)
Definition module_doc : string :=
"
Azure Automation Toolkit
========================
Automate common Azure operations: API keys, resource creation, management.

Requirements:
- Azure CLI installed (az --version)
- Logged in (az login)

Usage:
    python azure_automation.py login
    python azure_automation.py list_subscriptions
    python azure_automation.py list_resources [resource_group]
    python azure_automation.py get_keys <resource_type> <resource_name> <resource_group>
    python azure_automation.py create_resource_group <name> <location>
    python azure_automation.py create_cognitive <name> <resource_group> <kind>
    python azure_automation.py create_storage <name> <resource_group>
".

(** What a guarded handler does when it is given too few arguments:
    [print(usage)], whose value is [None]. *)
Definition usage (text : string) : M pyval := print text ;; ret PNone.

(** The [commands] table of [main], keys in the order the source lists
    them.  Each guard [len(args) >= n] is the pattern with [n] leading
    elements; [args[i]] is the [i]-th of them. *)
Definition commands (args : list string) : list (string * M pyval) :=
  [("login", login);
   ("account", get_account_info);
   ("list_subscriptions", list_subscriptions);
   ("list_groups", list_resource_groups);
   ("list_resources",
      list_resources match args with a0 :: _ => Some a0 | [] => None end);
   ("get_keys",
      match args with
      | a0 :: a1 :: a2 :: _ => get_keys a0 a1 a2
      | _ => usage "Usage: get_keys <type> <name> <resource_group>"
      end);
   ("create_resource_group",
      match args with
      | a0 :: rest =>
          create_resource_group a0
            match rest with a1 :: _ => a1 | [] => "eastus" end
      | [] => usage "Usage: create_resource_group <name> [location]"
      end);
   ("create_cognitive",
      match args with
      | a0 :: a1 :: rest =>
          create_cognitive_service a0 a1
            match rest with a2 :: _ => a2 | [] => "CognitiveServices" end
            "S0" "eastus"
      | _ => usage "Usage: create_cognitive <name> <resource_group> [kind]"
      end);
   ("create_storage",
      match args with
      | a0 :: a1 :: _ => create_storage_account a0 a1 "Standard_LRS" "eastus"
      | _ => usage "Usage: create_storage <name> <resource_group>"
      end);
   ("create_openai",
      match args with
      | a0 :: a1 :: _ => create_openai_service a0 a1 "eastus"
      | _ => usage "Usage: create_openai <name> <resource_group>"
      end);
   ("list_deployments",
      match args with
      | a0 :: a1 :: _ => list_openai_deployments a0 a1
      | _ => usage "Usage: list_deployments <resource_name> <resource_group>"
      end)].

(** [main()], with [sys.argv] as its argument. *)
Definition main (sys_argv : list string) : M unit :=
  match sys_argv with
  | [] | [_] => print module_doc
  | _ :: first :: args =>
      let command := lower first in
      match assoc command (commands args) with
      | Some handler => handler ;; ret tt
      | None =>
          print ("Unknown command: " ++ command) ;;
          print ("Available: " ++ join ", " (map fst (commands args)))
      end
  end.

End Tool.

(** The names [main] dispatches on and the positional arguments each one
    needs before its handler calls anything, read off the guards of
    [commands]. *)
Definition command_names : list string :=
  ["login"; "account"; "list_subscriptions"; "list_groups"; "list_resources";
   "get_keys"; "create_resource_group"; "create_cognitive"; "create_storage";
   "create_openai"; "list_deployments"].

Definition required_args (command : string) : nat :=
  if command =? "get_keys" then 3
  else if command =? "create_resource_group" then 1
  else if (command =? "create_cognitive") || (command =? "create_storage")
          || (command =? "create_openai") || (command =? "list_deployments") then 2
  else 0.

(** The process exit status a run ends with: 0 when [main] returns, 1 when
    an exception reaches the top of the interpreter. *)
Definition exit_status {A : Type} (outcome : result A * world) : Z :=
  match fst outcome with
  | inr _ => 0
  | inl _ => 1
  end.

End Azure.

(** ** The browser tool: [browser_tool.py] *)

(** The guard at the top of the file, which ends the process with status 1
    when Playwright cannot be imported, runs before [main] and is not part
    of what follows. *)

Module Browser.
Import Py.

(** What an operation asks of Playwright and of the clock, one constructor
    per call the source makes. *)
Inductive request : Type :=
| Start                                    (* entering [async with async_playwright() as p] *)
| Launch (headless : bool)                 (* [p.chromium.launch(headless=...)] *)
| NewPage                                  (* [browser.new_page()] *)
| Goto (url : string)                      (* [page.goto(url)] *)
| WaitForLoadState (state : string)        (* [page.wait_for_load_state(state)] *)
| Evaluate (script : string)               (* [page.evaluate(script)] *)
| Title                                    (* [page.title()] *)
| Content                                  (* [page.content()] *)
| Screenshot (path : string) (full_page : bool)
| Click (selector : string)                (* [page.click(selector)] *)
| TextContent (selector : string)          (* [page.locator(selector).text_content()] *)
| Close                                    (* [browser.close()] *)
| Now                                      (* [datetime.now().isoformat()] *)
| Stop.                                    (* leaving the [async with] block: [__aexit__] *)

(** What the tool does not define itself.  [driver] answers a request,
    knowing the requests made before it, with a value or an exception;
    nothing is assumed about which requests fail. *)
Record host : Type := {
  driver : list request -> request -> result pyval;
  json_dumps : pyval -> string
}.

(** The state of a run: whether the Playwright session entered by
    [async with] is live, whether a browser launched by [launch] is open,
    the requests made (answered or not) and the lines printed, oldest
    first. *)
Record world : Type := {
  playwright : bool;
  browser : bool;
  requests : list request;
  printed : list string
}.

Definition start : world :=
  {| playwright := false; browser := false; requests := []; printed := [] |}.

Definition M (A : Type) : Type := world -> result A * world.

Definition ret {A : Type} (a : A) : M A := fun w => (inr a, w).

Definition bind {A B : Type} (c : M A) (k : A -> M B) : M B :=
  fun w =>
    match c w with
    | (inl e, w') => (inl e, w')
    | (inr a, w') => k a w'
    end.

Definition lift {A : Type} (r : result A) : M A := fun w => (r, w).

Notation "x <- c1 ;; c2" := (bind c1 (fun x => c2))
  (at level 61, c1 at next level, right associativity).
Notation "c1 ;; c2" := (bind c1 (fun _ => c2))
  (at level 61, right associativity).

Definition print (line : string) : M unit :=
  fun w => (inr tt, {| playwright := playwright w; browser := browser w;
                       requests := requests w;
                       printed := (printed w ++ [line])%list |}).

(** What a request that was answered changes.  These are Playwright's
    doings, which the tool asks for and does not define: entering the
    block starts the driver, [launch] opens a browser, [close] ends it,
    and leaving the block stops the driver and with it a browser it
    launched that is still open. *)
Definition effect (r : request) (w : world) : world :=
  match r with
  | Start => {| playwright := true; browser := browser w;
                requests := requests w; printed := printed w |}
  | Launch _ => {| playwright := playwright w; browser := true;
                   requests := requests w; printed := printed w |}
  | Close => {| playwright := playwright w; browser := false;
                requests := requests w; printed := printed w |}
  | Stop => {| playwright := false; browser := false;
               requests := requests w; printed := printed w |}
  | _ => w
  end.

Definition record (r : request) (w : world) : world :=
  {| playwright := playwright w; browser := browser w;
     requests := (requests w ++ [r])%list; printed := printed w |}.

Section Tool.

Variable h : host.

(** [await] of one call: the request is recorded, then answered. *)
Definition call (r : request) : M pyval :=
  fun w =>
    match driver h (requests w) r with
    | inl e => (inl e, record r w)
    | inr v => (inr v, effect r (record r w))
    end.

(** [async with async_playwright() as p: body].  When entering fails the
    body does not run and there is nothing to leave.  Otherwise
    [__aexit__] is awaited on the way out, whether [body] returned or
    raised: it is one more request to the driver, the last one, and it may
    raise like any other, in which case its exception is the one that
    leaves the block.  Playwright's [__aexit__] returns [None], so when it
    is answered an exception of [body] is not swallowed and goes on to the
    caller. *)
Definition async_with_playwright {A : Type} (body : M A) : M A :=
  fun w =>
    match call Start w with
    | (inl e, w1) => (inl e, w1)
    | (inr _, w1) =>
        let (r, w2) := body w1 in
        match call Stop w2 with
        | (inl e, w3) => (inl e, w3)
        | (inr _, w3) => (r, w3)
        end
    end.

(** The in-page script of [search_google]. *)
Definition search_script : string :=
"
            () => {
                const items = document.querySelectorAll('div.g');
                return Array.from(items).slice(0, 5).map(item => {
                    const title = item.querySelector('h3')?.textContent || '';
                    const link = item.querySelector('a')?.href || '';
                    const snippet = item.querySelector('.VwiC3b')?.textContent || '';
                    return { title, link, snippet };
                });
            }
        ".

Definition search_google (query : string) : M pyval :=
  async_with_playwright (
    call (Launch true) ;;
    call NewPage ;;
    call (Goto ("https://www.google.com/search?q=" ++ query)) ;;
    call (WaitForLoadState "networkidle") ;;
    results <- call (Evaluate search_script) ;;
    call Close ;;
    timestamp <- call Now ;;
    ret (PDict [("query", PStr query);
                ("results", results);
                ("timestamp", timestamp)])).

Definition take_screenshot (url output_path : string) : M pyval :=
  async_with_playwright (
    call (Launch true) ;;
    call NewPage ;;
    call (Goto url) ;;
    call (WaitForLoadState "networkidle") ;;
    call (Screenshot output_path true) ;;
    call Close ;;
    timestamp <- call Now ;;
    ret (PDict [("url", PStr url);
                ("screenshot", PStr output_path);
                ("timestamp", timestamp)])).

Definition get_page_text (url : string) : M pyval :=
  async_with_playwright (
    call (Launch true) ;;
    call NewPage ;;
    call (Goto url) ;;
    call (WaitForLoadState "networkidle") ;;
    title <- call Title ;;
    text <- call (Evaluate "() => document.body.innerText") ;;
    call Close ;;
    limited <- lift (slice_to 5000 text) ;;
    timestamp <- call Now ;;
    ret (PDict [("url", PStr url);
                ("title", title);
                ("text", limited);
                ("timestamp", timestamp)])).

Definition get_page_html (url : string) : M pyval :=
  async_with_playwright (
    call (Launch true) ;;
    call NewPage ;;
    call (Goto url) ;;
    call (WaitForLoadState "networkidle") ;;
    html <- call Content ;;
    call Close ;;
    limited <- lift (slice_to 10000 html) ;;
    timestamp <- call Now ;;
    ret (PDict [("url", PStr url);
                ("html", limited);
                ("timestamp", timestamp)])).

Definition click_and_extract (url click_selector extract_selector : string) : M pyval :=
  async_with_playwright (
    call (Launch true) ;;
    call NewPage ;;
    call (Goto url) ;;
    call (WaitForLoadState "networkidle") ;;
    call (Click click_selector) ;;
    call (WaitForLoadState "networkidle") ;;
    text <- call (TextContent extract_selector) ;;
    call Close ;;
    timestamp <- call Now ;;
    ret (PDict [("url", PStr url);
                ("clicked", PStr click_selector);
                ("extracted", text);
                ("timestamp", timestamp)])).

(** [main()], with [sys.argv] as its argument: the [if]/[elif] chain as
    written, [sys.argv[i]] being [nth i sys_argv] under the guard on the
    length that precedes it. *)
Definition main (sys_argv : list string) : M unit :=
  if (length sys_argv <? 2)%nat then
    print "Usage: python browser_tool.py <command> [args...]" ;;
    print "Commands: search, screenshot, get_text, get_html"
  else
    let command := nth 1 sys_argv "" in
    if (command =? "search") && (3 <=? length sys_argv)%nat then
      let query := join " " (skipn 2 sys_argv) in
      result <- search_google query ;;
      print (json_dumps h result)
    else if (command =? "screenshot") && (4 <=? length sys_argv)%nat then
      let url := nth 2 sys_argv "" in
      let output := nth 3 sys_argv "" in
      result <- take_screenshot url output ;;
      print (json_dumps h result)
    else if (command =? "get_text") && (3 <=? length sys_argv)%nat then
      let url := nth 2 sys_argv "" in
      result <- get_page_text url ;;
      print (json_dumps h result)
    else if (command =? "get_html") && (3 <=? length sys_argv)%nat then
      let url := nth 2 sys_argv "" in
      result <- get_page_html url ;;
      print (json_dumps h result)
    else
      print ("Unknown command or missing arguments: " ++ command) ;;
      print "Commands: search, screenshot, get_text, get_html".

End Tool.

(** The names the chain of [main] tests for, in its order, and the
    positional arguments each guard asks for. *)
Definition command_names : list string :=
  ["search"; "screenshot"; "get_text"; "get_html"].

Definition required_args (command : string) : nat :=
  if command =? "screenshot" then 2
  else if (command =? "search") || (command =? "get_text") || (command =? "get_html")
  then 1
  else 0.

(** The five operations of the tool, each with its arguments. *)
Inductive operation : Type :=
| OpSearch (query : string)
| OpScreenshot (url output_path : string)
| OpGetText (url : string)
| OpGetHtml (url : string)
| OpClickAndExtract (url click_selector extract_selector : string).

Definition perform (h : host) (op : operation) : M pyval :=
  match op with
  | OpSearch query => search_google h query
  | OpScreenshot url output_path => take_screenshot h url output_path
  | OpGetText url => get_page_text h url
  | OpGetHtml url => get_page_html h url
  | OpClickAndExtract url c e => click_and_extract h url c e
  end.

Definition exit_status {A : Type} (outcome : result A * world) : Z :=
  match fst outcome with
  | inr _ => 0
  | inl _ => 1
  end.

End Browser.

(** ** Vocabulary of the specification *)

Module Spec.
Import Py.

(** An Invocation Result is a success when [result["success"]] is true, the
    test every handler of the cloud tool makes. *)
Definition succeeded (v : pyval) : bool :=
  match getitem v "success" with
  | inr ok => truthy ok
  | inl _ => false
  end.

(** ... and a failure when it is false. *)
Definition failed (v : pyval) : bool :=
  match getitem v "success" with
  | inr ok => negb (truthy ok)
  | inl _ => false
  end.

(** The process [run_az_command(args, parse_json)] starts. *)
Definition az_call (args : list string) (parse_json : bool) : Azure.spawn :=
  {| Azure.argv := (("az" :: args) ++ (if parse_json then ["-o"; "json"] else []))%list;
     Azure.timeout := 120 |}.

(** A host on which no [az] process succeeds: every one exits with a
    non-zero code, times out, or cannot be started. *)
Definition always_fails (h : Azure.host) : Prop :=
  forall earlier call,
    match Azure.subprocess_run h earlier call with
    | Azure.Completed returncode _ _ => returncode <> 0%Z
    | _ => True
    end.

(** A computation of the cloud tool that, from every state, returns a
    value: no exception reaches the caller. *)
Definition returns {A : Type} (c : Azure.M A) : Prop :=
  forall w, exists a w', c w = (inr a, w').

(** A computation of the cloud tool only ever adds to the processes
    started, and one that starts at least one. *)
Definition spawns {A : Type} (c : Azure.M A) : Prop :=
  forall w, exists later,
    Azure.spawned (snd (c w)) = app (Azure.spawned w) later.

Definition calls_az {A : Type} (c : Azure.M A) : Prop :=
  forall w, exists call later,
    Azure.spawned (snd (c w)) = app (Azure.spawned w) (call :: later).

(** The fragment of a secret the key listings show, and the marker that
    follows it. *)
Definition prefix_length : nat := 20.
Definition truncation_marker : string := "...".
Definition shown_key (secret : string) : string :=
  str_take prefix_length secret ++ truncation_marker.

(** The line a storage key listing shows for a key called [fst entry]
    whose secret is [snd entry]. *)
Definition storage_line (entry : string * string) : string :=
  "  " ++ fst entry ++ ": " ++ shown_key (snd entry).

(** A decoded entry of a storage key listing names the key and holds its
    secret. *)
Definition lists_key (entry : pyval) (key : string * string) : Prop :=
  getitem entry "keyName" = inr (PStr (fst key))
  /\ getitem entry "value" = inr (PStr (snd key)).

(** The usage string of a command of the cloud tool, as its guard prints
    it. *)
Definition usage_of (command : string) : option string :=
  if command =? "get_keys" then Some "Usage: get_keys <type> <name> <resource_group>"
  else if command =? "create_resource_group"
       then Some "Usage: create_resource_group <name> [location]"
  else if command =? "create_cognitive"
       then Some "Usage: create_cognitive <name> <resource_group> [kind]"
  else if command =? "create_storage"
       then Some "Usage: create_storage <name> <resource_group>"
  else if command =? "create_openai"
       then Some "Usage: create_openai <name> <resource_group>"
  else if command =? "list_deployments"
       then Some "Usage: list_deployments <resource_name> <resource_group>"
  else None.

(** "Prints that command's usage string", as the specification words it:
    one of the printed lines is a usage line of the command, that is, it
    starts with [Usage: ] and the command's name. *)
Definition prints_usage_of (command : string) (lines : list string) : bool :=
  existsb (String.prefix ("Usage: " ++ command)) lines.

(** What the browser tool prints instead, for a name it does not know and
    for a known one with too few arguments alike. *)
Definition browser_fallback (command : string) : list string :=
  ["Unknown command or missing arguments: " ++ command;
   "Commands: search, screenshot, get_text, get_html"].

(** The requests [get_page_text] and [get_page_html] have made when they
    ask for the body text and for the markup. *)
Definition before_text (url : string) (w : Browser.world) : list Browser.request :=
  app (Browser.requests w)
      [Browser.Start; Browser.Launch true; Browser.NewPage; Browser.Goto url;
       Browser.WaitForLoadState "networkidle"; Browser.Title].

Definition before_html (url : string) (w : Browser.world) : list Browser.request :=
  app (Browser.requests w)
      [Browser.Start; Browser.Launch true; Browser.NewPage; Browser.Goto url;
       Browser.WaitForLoadState "networkidle"].

(** A driver that answers every request. *)
Definition never_raises (h : Browser.host) : Prop :=
  forall earlier r, exists v, Browser.driver h earlier r = inr v.

(** A computation of the browser tool only ever adds to the requests. *)
Definition grows {A : Type} (c : Browser.M A) : Prop :=
  forall w, exists during,
    Browser.requests (snd (c w)) = app (Browser.requests w) during.

(** *** Vocabulary for the requests the browser tool makes *)

(** The requests of an operation in which nothing raises, in order, up to
    the one for the timestamp (leaving the block comes after them). *)
Definition script (op : Browser.operation) : list Browser.request :=
  match op with
  | Browser.OpSearch query =>
      [Browser.Start; Browser.Launch true; Browser.NewPage;
       Browser.Goto ("https://www.google.com/search?q=" ++ query);
       Browser.WaitForLoadState "networkidle";
       Browser.Evaluate Browser.search_script;
       Browser.Close; Browser.Now]
  | Browser.OpScreenshot url output_path =>
      [Browser.Start; Browser.Launch true; Browser.NewPage; Browser.Goto url;
       Browser.WaitForLoadState "networkidle";
       Browser.Screenshot output_path true;
       Browser.Close; Browser.Now]
  | Browser.OpGetText url =>
      [Browser.Start; Browser.Launch true; Browser.NewPage; Browser.Goto url;
       Browser.WaitForLoadState "networkidle";
       Browser.Title; Browser.Evaluate "() => document.body.innerText";
       Browser.Close; Browser.Now]
  | Browser.OpGetHtml url =>
      [Browser.Start; Browser.Launch true; Browser.NewPage; Browser.Goto url;
       Browser.WaitForLoadState "networkidle";
       Browser.Content;
       Browser.Close; Browser.Now]
  | Browser.OpClickAndExtract url click_selector extract_selector =>
      [Browser.Start; Browser.Launch true; Browser.NewPage; Browser.Goto url;
       Browser.WaitForLoadState "networkidle";
       Browser.Click click_selector;
       Browser.WaitForLoadState "networkidle";
       Browser.TextContent extract_selector;
       Browser.Close; Browser.Now]
  end.

(** What the driver answers to the [i]-th request of the script, asked
    after the [i] requests before it, in a run that starts in [w]. *)
Definition answer (h : Browser.host) (w : Browser.world) (op : Browser.operation)
    (i : nat) : result pyval :=
  Browser.driver h (app (Browser.requests w) (firstn i (script op)))
    (nth i (script op) Browser.Stop).

(** The operation a command line of the browser tool asks for, when its
    guard holds. *)
Definition operation_of (command : string) (args : list string)
  : option Browser.operation :=
  if command =? "search" then
    match args with
    | [] => None
    | _ :: _ => Some (Browser.OpSearch (join " " args))
    end
  else if command =? "screenshot" then
    match args with
    | url :: output :: _ => Some (Browser.OpScreenshot url output)
    | _ => None
    end
  else if command =? "get_text" then
    match args with
    | url :: _ => Some (Browser.OpGetText url)
    | [] => None
    end
  else if command =? "get_html" then
    match args with
    | url :: _ => Some (Browser.OpGetHtml url)
    | [] => None
    end
  else None.

(** A computation of the browser tool that prints nothing. *)
Definition silent {A : Type} (c : Browser.M A) : Prop :=
  forall w, Browser.printed (snd (c w)) = Browser.printed w.

(** The state after the browser tool prints [line]. *)
Definition browser_after_print (line : string) (w : Browser.world) : Browser.world :=
  {| Browser.playwright := Browser.playwright w;
     Browser.browser := Browser.browser w;
     Browser.requests := Browser.requests w;
     Browser.printed := app (Browser.printed w) [line] |}.

(** *** Vocabulary for the processes the cloud tool starts *)

(** A computation of the cloud tool that starts no process. *)
Definition quiet {A : Type} (c : Azure.M A) : Prop :=
  forall w, Azure.spawned (snd (c w)) = Azure.spawned w.

(** The [az] subcommands the handlers reachable from [main] name, each by
    the words that follow [az]. *)
Definition az_subcommands : list (list string) :=
  [["login"];
   ["account"; "list"];
   ["account"; "show"];
   ["group"; "list"];
   ["group"; "create"];
   ["resource"; "list"];
   ["cognitiveservices"; "account"; "keys"; "list"];
   ["cognitiveservices"; "account"; "create"];
   ["cognitiveservices"; "account"; "deployment"; "list"];
   ["storage"; "account"; "keys"; "list"];
   ["storage"; "account"; "create"]].

Fixpoint starts_with (words line : list string) : bool :=
  match words, line with
  | [], _ => true
  | _ :: _, [] => false
  | word :: words', first :: line' => (word =? first) && starts_with words' line'
  end.

(** A process is one of those: the executable is [az], the words after it
    begin with one of [az_subcommands], and the timeout is 120 seconds. *)
Definition allowed (call : Azure.spawn) : bool :=
  (Azure.timeout call =? 120)%Z
  && match Azure.argv call with
     | [] => false
     | executable :: line =>
         (executable =? "az") && existsb (fun words => starts_with words line) az_subcommands
     end.

(** A computation that starts at most [n] processes, all of them allowed. *)
Definition at_most (n : nat) {A : Type} (c : Azure.M A) : Prop :=
  forall w, exists later,
    Azure.spawned (snd (c w)) = app (Azure.spawned w) later
    /\ (length later <= n)%nat
    /\ forallb allowed later = true.

(** What a failed call reports: the captured error text, the timeout
    message, or the text of the exception. *)
Definition failure_message (r : Azure.run_result) : string :=
  match r with
  | Azure.Completed _ _ stderr => stderr
  | Azure.TimeoutExpired => "Command timed out"
  | Azure.RunRaised msg => msg
  end.

(** The state after [print(line)]. *)
Definition after_print (line : string) (w : Azure.world) : Azure.world :=
  {| Azure.printed := app (Azure.printed w) [line];
     Azure.spawned := Azure.spawned w |}.

(** The state after one call of [run_az_command]. *)
Definition after_call (args : list string) (parse_json : bool) (w : Azure.world)
  : Azure.world :=
  {| Azure.printed := Azure.printed w;
     Azure.spawned := app (Azure.spawned w) [az_call args parse_json] |}.

(** The Invocation Result [run_az_command(args, parse_json)] returns in
    state [w] (it always returns one). *)
Definition result_of (h : Azure.host) (args : list string) (parse_json : bool)
    (w : Azure.world) : pyval :=
  match fst (Azure.run_az_command h args parse_json w) with
  | inr v => v
  | inl _ => PNone
  end.

(** A subscription as [list_subscriptions] shows it: its name and
    identifier, whether its state is [Enabled], whether it is the
    default. *)
Record subscription : Type := {
  sub_name : string;
  sub_id : string;
  sub_enabled : bool;
  sub_default : bool
}.

(** A decoded entry of [az account list] read as a subscription: [name]
    and [id] are strings, the state (absent counts as [None]) equals
    [Enabled] or not, [isDefault] (absent counts as [None]) is true or
    not. *)
Definition shows_subscription (entry : pyval) (s : subscription) : Prop :=
  getitem entry "name" = inr (PStr (sub_name s))
  /\ getitem entry "id" = inr (PStr (sub_id s))
  /\ (exists state, get entry "state" PNone = inr state
                    /\ eq_str state "Enabled" = sub_enabled s)
  /\ (exists flag, get entry "isDefault" PNone = inr flag
                   /\ truthy flag = sub_default s).

Definition subscription_lines (s : subscription) : list string :=
  ["  " ++ (if sub_enabled s then "✓" else "✗") ++ " " ++ sub_name s
        ++ (if sub_default s then " (DEFAULT)" else "");
   "    ID: " ++ sub_id s].

(** The most positional arguments a command of the cloud tool reads. *)
Definition max_args (command : string) : nat :=
  if command =? "get_keys" then 3
  else if command =? "create_cognitive" then 3
  else if (command =? "create_resource_group") || (command =? "create_storage")
          || (command =? "create_openai") || (command =? "list_deployments") then 2
  else if command =? "list_resources" then 1
  else 0.

End Spec.

(** ** Simulated hosts, for the worked examples *)

Module Sim.
Import Py.

Definition dq : string := String (ascii_of_nat 34) EmptyString.

(** A host of the cloud tool whose every process ends as [r], and whose
    decoder knows the texts of [table] and rejects every other text. *)
Definition azure_host (r : Azure.run_result) (table : list (string * pyval))
  : Azure.host :=
  {| Azure.subprocess_run := fun _ _ => r;
     Azure.json_loads := fun text =>
       match assoc text table with
       | Some v => Azure.Loaded v
       | None => Azure.JSONDecodeError
       end;
     Azure.repr := fun _ => "<repr>" |}.

(** [az] is not logged in: exit code 1 and a message on standard error. *)
Definition not_logged_in : Azure.run_result :=
  Azure.Completed 1 "" "ERROR: Please run 'az login' to setup account.".

(** [az] is not installed: [subprocess.run] raises [FileNotFoundError]. *)
Definition not_installed : Azure.run_result :=
  Azure.RunRaised "[Errno 2] No such file or directory: 'az'".

(** [az] exits 0 and prints a text that is not JSON. *)
Definition not_json : Azure.run_result :=
  Azure.Completed 0 "not json" "".

(** [az] exits 0 and prints an integer of 5,000 digits, on which
    [json.loads] raises [ValueError]: Python refuses to convert a numeral
    of more than 4,300 digits. *)
Definition many_digits : string := str_mul "1" 5000.

Definition digit_limit_message : string :=
  "Exceeds the limit (4300 digits) for integer string conversion: "
  ++ "value has 5000 digits; use sys.set_int_max_str_digits() to increase the limit".

Definition digit_limit_host : Azure.host :=
  {| Azure.subprocess_run := fun _ _ => Azure.Completed 0 many_digits "";
     Azure.json_loads := fun text =>
       if text =? many_digits then Azure.LoadsRaised digit_limit_message
       else Azure.JSONDecodeError;
     Azure.repr := fun _ => "<repr>" |}.

(** A key listing of [az cognitiveservices account keys list], as text and
    decoded. *)
Definition key1 : string := "0123456789abcdef0123456789abcdef".
Definition key2 : string := "fedcba9876543210fedcba9876543210".

Definition keys_text : string :=
  "{" ++ dq ++ "key1" ++ dq ++ ": " ++ dq ++ key1 ++ dq ++ ", "
      ++ dq ++ "key2" ++ dq ++ ": " ++ dq ++ key2 ++ dq ++ "}".

Definition keys_value : list (string * pyval) :=
  [("key1", PStr key1); ("key2", PStr key2)].

(** A key listing of [az storage account keys list]. *)
Definition storage_text : string :=
  "[{" ++ dq ++ "keyName" ++ dq ++ ": " ++ dq ++ "key1" ++ dq ++ ", "
       ++ dq ++ "value" ++ dq ++ ": " ++ dq ++ key1 ++ dq ++ "}]".

Definition storage_value : list (string * string) := [("key1", key1)].

Definition storage_entry (kv : string * string) : pyval :=
  PDict [("keyName", PStr (fst kv)); ("value", PStr (snd kv))].

(** Three entries of [az account list], decoded: an enabled default
    subscription, a disabled one, and one without a state. *)
Definition subscriptions_text : string := "[ three subscriptions ]".

Definition subscriptions_value : list pyval :=
  [PDict [("name", PStr "Production"); ("id", PStr "1111"); ("state", PStr "Enabled");
          ("isDefault", PBool true)];
   PDict [("name", PStr "Sandbox"); ("id", PStr "2222"); ("state", PStr "Disabled");
          ("isDefault", PBool false)];
   PDict [("name", PStr "Legacy"); ("id", PStr "3333")]].

(** A storage key listing whose second entry has no [value]. *)
Definition broken_storage_value : list pyval :=
  [PDict [("keyName", PStr "key1"); ("value", PStr key1)];
   PDict [("keyName", PStr "key2")];
   PDict [("keyName", PStr "key3"); ("value", PStr key2)]].

(** A body text of 5,001 characters and a markup of 10,008. *)
Definition long_text : string := str_mul "a" 5001.
Definition long_html : string := str_mul "<p>x</p>" 1251.

(** A Playwright driver that answers every request: [page_text] for the
    body text, [page_html] for the markup, and [None] or a fixed string for
    the rest. *)
Definition browser_host (page_text page_html : string) : Browser.host :=
  {| Browser.driver := fun _ r =>
       match r with
       | Browser.Evaluate _ => inr (PStr page_text)
       | Browser.Content => inr (PStr page_html)
       | Browser.Title => inr (PStr "Example Domain")
       | Browser.Now => inr (PStr "2024-01-01T00:00:00")
       | _ => inr PNone
       end;
     Browser.json_dumps := fun _ => "<json>" |}.

(** A driver whose navigation fails: [page.goto] raises, everything else
    is answered. *)
Definition unreachable_host : Browser.host :=
  {| Browser.driver := fun _ r =>
       match r with
       | Browser.Goto _ => inl (LibraryError "net::ERR_NAME_NOT_RESOLVED")
       | _ => inr PNone
       end;
     Browser.json_dumps := fun _ => "<json>" |}.


End Sim.

(** ** Properties of [run_az_command] *)

Module AzureInvoker.
Import Py Azure Spec.

Ltac run_cases h w args pj :=
  unfold run_az_command, bind, run, ret, az_call in *; cbn [fst snd] in *;
  destruct (subprocess_run h (spawned w) _)
    as [rc0 out0 err0 | | msg0] eqn:Hrun.

(** Every call starts exactly one process, [az] followed by the arguments
    (and [-o json] in structured mode) with a timeout of 120 seconds, and
    prints nothing. *)
Lemma run_az_command_world (h : host) (args : list string) (pj : bool) (w : world) :
  snd (run_az_command h args pj w)
  = {| printed := printed w; spawned := (spawned w ++ [az_call args pj])%list |}.
Proof.
  run_cases h w args pj.
  - destruct (rc0 =? 0)%Z; cbn; [|reflexivity].
    destruct (pj && strip_nonempty out0); [|reflexivity].
    destruct (json_loads h out0); reflexivity.
  - reflexivity.
  - reflexivity.
Qed.

(** No exception leaves [run_az_command]: it always returns a value. *)
Lemma run_az_command_returns (h : host) (args : list string) (pj : bool) (w : world) :
  exists v, fst (run_az_command h args pj w) = inr v.
Proof.
  run_cases h w args pj.
  - destruct (rc0 =? 0)%Z; cbn; [|eexists; reflexivity].
    destruct (pj && strip_nonempty out0); [|eexists; reflexivity].
    destruct (json_loads h out0); eexists; reflexivity.
  - eexists; reflexivity.
  - eexists; reflexivity.
Qed.

(** The value returned for a process that did not exit with code zero. *)
Lemma run_az_command_nonzero (h : host) (args : list string) (pj : bool) (w : world)
    (rc : Z) (out err : string) :
  subprocess_run h (spawned w) (az_call args pj) = Completed rc out err ->
  rc <> 0%Z ->
  fst (run_az_command h args pj w) = inr (failure_of err).
Proof.
  intros Hrun' Hrc. run_cases h w args pj; try discriminate.
  injection Hrun' as -> -> ->.
  destruct (rc =? 0)%Z eqn:E; [apply Z.eqb_eq in E; contradiction | reflexivity].
Qed.

(** C1, as the code has it.  When [run_az_command] is called in
    structured mode and the process exits with code zero, what a decode
    failure does depends on the exception.  When [json.loads] rejects the
    output with [JSONDecodeError], the call returns the success result
    [{"data": stdout, "success": True}] holding the raw text: that failure
    reaches the caller neither as a failure result nor as an exception,
    and the result has no [error] entry.  When [json.loads] raises any
    other exception on the output, the last handler returns the failure
    result [{"error": str(e), "success": False}]: the failure is
    surfaced, and the result has no [data] entry. *)
Theorem only_json_decode_error_is_masked (h : host) (args : list string) (w : world)
    (out err : string) :
  subprocess_run h (spawned w) (az_call args true) = Completed 0 out err ->
  (json_loads h out = JSONDecodeError ->
     fst (run_az_command h args true w)
     = inr (PDict [("data", PStr out); ("success", PBool true)])
     /\ succeeded (PDict [("data", PStr out); ("success", PBool true)]) = true
     /\ has_key "error" (PDict [("data", PStr out); ("success", PBool true)]) = false)
  /\ (forall msg,
        strip_nonempty out = true ->
        json_loads h out = LoadsRaised msg ->
        fst (run_az_command h args true w)
        = inr (PDict [("error", PStr msg); ("success", PBool false)])
        /\ succeeded (PDict [("error", PStr msg); ("success", PBool false)]) = false
        /\ failed (PDict [("error", PStr msg); ("success", PBool false)]) = true
        /\ has_key "data" (PDict [("error", PStr msg); ("success", PBool false)]) = false).
Proof.
  intros Hrun'. split.
  - intros Hloads. split; [|split; reflexivity].
    run_cases h w args true; try discriminate.
    injection Hrun' as -> -> ->. rewrite Hloads. cbn.
    destruct (strip_nonempty out); reflexivity.
  - intros msg Hfull Hloads. split; [|repeat split].
    run_cases h w args true; try discriminate.
    injection Hrun' as -> -> ->. rewrite Hloads, Hfull. reflexivity.
Qed.

(** A success result is only ever returned for an exit code of zero. *)
Lemma success_needs_exit_zero (h : host) (args : list string) (pj : bool)
    (w : world) (v : pyval) :
  fst (run_az_command h args pj w) = inr v ->
  succeeded v = true ->
  exists out err, subprocess_run h (spawned w) (az_call args pj) = Completed 0 out err.
Proof.
  run_cases h w args pj; intros Hv Hok.
  - destruct (rc0 =? 0)%Z eqn:E; cbn in Hv.
    + apply Z.eqb_eq in E. subst. do 2 eexists; reflexivity.
    + injection Hv as <-. discriminate.
  - injection Hv as <-. discriminate.
  - injection Hv as <-. discriminate.
Qed.

Lemma run_az_command_timeout (h : host) (args : list string) (pj : bool) (w : world) :
  subprocess_run h (spawned w) (az_call args pj) = TimeoutExpired ->
  fst (run_az_command h args pj w) = inr (failure_of "Command timed out").
Proof.
  intros Hrun'. run_cases h w args pj; try discriminate. reflexivity.
Qed.

Lemma run_az_command_raised (h : host) (args : list string) (pj : bool) (w : world)
    (msg : string) :
  subprocess_run h (spawned w) (az_call args pj) = RunRaised msg ->
  fst (run_az_command h args pj w) = inr (failure_of msg).
Proof.
  intros Hrun'. run_cases h w args pj; try discriminate.
  injection Hrun' as ->. reflexivity.
Qed.

Lemma run_az_command_exit_zero (h : host) (args : list string) (pj : bool) (w : world)
    (out err : string) :
  subprocess_run h (spawned w) (az_call args pj) = Completed 0 out err ->
  match (if pj && strip_nonempty out then json_loads h out else JSONDecodeError) with
  | Loaded v => fst (run_az_command h args pj w) = inr (success_of v)
  | JSONDecodeError => fst (run_az_command h args pj w) = inr (success_of (PStr out))
  | LoadsRaised msg => fst (run_az_command h args pj w) = inr (failure_of msg)
  end.
Proof.
  intros Hrun'. run_cases h w args pj; try discriminate.
  injection Hrun' as -> -> ->.
  destruct (pj && strip_nonempty out); [|reflexivity].
  destruct (json_loads h out); reflexivity.
Qed.

(** C2, as the code has it.  The result of [run_az_command] is a success
    only if the process exited with code zero; a non-zero exit gives the
    failure carrying the captured error text, a timeout the failure
    [Command timed out], any other exception of [subprocess.run] the
    failure carrying its message.  On exit code zero the result is a
    success holding the decoded value, or the raw text when structured
    mode is off, the output is blank or [json.loads] raises
    [JSONDecodeError]; only another exception of [json.loads] turns an exit
    code of zero into a failure. *)
Theorem run_az_command_classification (h : host) (args : list string) (pj : bool)
    (w : world) :
  let call := {| argv := (("az" :: args) ++ (if pj then ["-o"; "json"] else []))%list;
                 timeout := 120 |} in
  let outcome := subprocess_run h (spawned w) call in
  let returned := fst (run_az_command h args pj w) in
  snd (run_az_command h args pj w)
  = {| printed := printed w; spawned := (spawned w ++ [call])%list |}
  /\ (forall v, returned = inr v -> succeeded v = true ->
        exists out err, outcome = Completed 0 out err)
  /\ (forall rc out err, outcome = Completed rc out err -> rc <> 0%Z ->
        returned = inr (failure_of err) /\ succeeded (failure_of err) = false)
  /\ (outcome = TimeoutExpired -> returned = inr (failure_of "Command timed out"))
  /\ (forall msg, outcome = RunRaised msg -> returned = inr (failure_of msg))
  /\ (forall out err, outcome = Completed 0 out err ->
        (pj = false \/ strip_nonempty out = false \/ json_loads h out = JSONDecodeError ->
         returned = inr (success_of (PStr out)))
        /\ (forall v, pj = true -> strip_nonempty out = true ->
                      json_loads h out = Loaded v ->
                      returned = inr (success_of v))
        /\ (forall msg, pj = true -> strip_nonempty out = true ->
                        json_loads h out = LoadsRaised msg ->
                        returned = inr (failure_of msg))).
Proof.
  cbv zeta. split; [apply run_az_command_world|].
  split; [apply success_needs_exit_zero|].
  split; [intros rc out err Hrun Hrc; split;
          [eapply run_az_command_nonzero; eassumption | reflexivity]|].
  split; [apply run_az_command_timeout|].
  split; [apply run_az_command_raised|].
  intros out err Hrun.
  pose proof (run_az_command_exit_zero h args pj w out err Hrun) as Hzero.
  repeat split.
  - intros [-> | [Hblank | Hloads]].
    + exact Hzero.
    + rewrite Hblank, andb_false_r in Hzero. exact Hzero.
    + destruct (pj && strip_nonempty out); [rewrite Hloads in Hzero|]; exact Hzero.
  - intros v -> Hfull Hloads. rewrite Hfull, Hloads in Hzero. exact Hzero.
  - intros msg -> Hfull Hloads. rewrite Hfull, Hloads in Hzero. exact Hzero.
Qed.

(** C9. On every return path the result of [run_az_command] carries
    exactly one outcome: either [success] is [True], there is a [data]
    entry and no [error] entry, or [success] is [False], there is an
    [error] entry holding a string and no [data] entry. *)
Theorem one_outcome_tag (h : host) (args : list string) (pj : bool) (w : world) :
  exists v, fst (run_az_command h args pj w) = inr v
  /\ ((getitem v "success" = inr (PBool true)
       /\ has_key "data" v = true /\ has_key "error" v = false)
      \/ (getitem v "success" = inr (PBool false)
          /\ (exists message, getitem v "error" = inr (PStr message))
          /\ has_key "data" v = false)).
Proof.
  assert (Hs : forall d, let v := success_of d in
            getitem v "success" = inr (PBool true)
            /\ has_key "data" v = true /\ has_key "error" v = false)
    by (intro d; repeat split).
  assert (Hf : forall m, let v := failure_of m in
            getitem v "success" = inr (PBool false)
            /\ (exists message, getitem v "error" = inr (PStr message))
            /\ has_key "data" v = false)
    by (intro m; repeat split; exists m; reflexivity).
  run_cases h w args pj.
  - destruct (rc0 =? 0)%Z; cbn.
    + destruct (pj && strip_nonempty out0).
      * destruct (json_loads h out0); eexists; split; try reflexivity;
          [left; apply Hs | left; apply Hs | right; apply Hf].
      * eexists; split; [reflexivity | left; apply Hs].
    + eexists; split; [reflexivity | right; apply Hf].
  - eexists; split; [reflexivity | right; apply Hf].
  - eexists; split; [reflexivity | right; apply Hf].
Qed.

(** The masking at work: [az account show] exits with code zero and prints
    [not json]. *)
Lemma only_json_decode_error_is_masked_example :
  fst (run_az_command (Sim.azure_host Sim.not_json []) ["account"; "show"] true start)
  = inr (PDict [("data", PStr "not json"); ("success", PBool true)])
  /\ succeeded (PDict [("data", PStr "not json"); ("success", PBool true)]) = true
  /\ has_key "error" (PDict [("data", PStr "not json"); ("success", PBool true)]) = false.
Proof.
  apply (proj1 (only_json_decode_error_is_masked (Sim.azure_host Sim.not_json [])
                  ["account"; "show"] start "not json" "" eq_refl)).
  reflexivity.
Defined.

(** C1 as stated fails for a decode failure that is not a
    [JSONDecodeError]: the process exits with code zero, [json.loads]
    raises [ValueError] on the 5,000 digits it printed, and the result is
    a failure carrying the message of the exception, not a success
    carrying the raw text. *)
Lemma other_decode_failure_is_surfaced :
  let h := Sim.digit_limit_host in
  let args := ["account"; "show"] in
  subprocess_run h (spawned start) (az_call args true) = Completed 0 Sim.many_digits ""
  /\ json_loads h Sim.many_digits = LoadsRaised Sim.digit_limit_message
  /\ fst (run_az_command h args true start) = inr (failure_of Sim.digit_limit_message)
  /\ fst (run_az_command h args true start) <> inr (success_of (PStr Sim.many_digits))
  /\ succeeded (failure_of Sim.digit_limit_message) = false
  /\ getitem (failure_of Sim.digit_limit_message) "error"
     = inr (PStr Sim.digit_limit_message).
Proof.
  cbv zeta.
  assert (Hrun : fst (run_az_command Sim.digit_limit_host ["account"; "show"] true start)
                 = inr (failure_of Sim.digit_limit_message))
    by (vm_compute; reflexivity).
  repeat split; try (vm_compute; reflexivity); try exact Hrun.
  rewrite Hrun. discriminate.
Qed.

(** C2 as stated fails where it lists a decode error among the failures:
    the process exits with code zero, [json.loads] rejects its output, and
    the result is a success, not a failure. *)
Lemma decode_failure_is_not_a_failure :
  let h := Sim.azure_host Sim.not_json [] in
  let args := ["account"; "show"] in
  subprocess_run h (spawned start) (az_call args true) = Completed 0 "not json" ""
  /\ json_loads h "not json" = JSONDecodeError
  /\ fst (run_az_command h args true start) = inr (success_of (PStr "not json"))
  /\ failed (success_of (PStr "not json")) = false
  /\ succeeded (success_of (PStr "not json")) = true.
Proof.
  cbv zeta. repeat split.
Qed.

(** The other branches of the classification, run once each. *)
Example nonzero_exit_is_a_failure :
  fst (run_az_command (Sim.azure_host Sim.not_logged_in []) ["group"; "list"] true start)
  = inr (PDict [("error", PStr "ERROR: Please run 'az login' to setup account.");
                ("success", PBool false)]).
Proof. reflexivity. Qed.

Example timeout_is_a_failure :
  fst (run_az_command (Sim.azure_host TimeoutExpired []) ["login"] false start)
  = inr (PDict [("error", PStr "Command timed out"); ("success", PBool false)]).
Proof. reflexivity. Qed.

Example decoded_output_is_a_success :
  fst (run_az_command
         (Sim.azure_host (Completed 0 Sim.keys_text "") [(Sim.keys_text, PDict Sim.keys_value)])
         ["cognitiveservices"; "account"; "keys"; "list"] true start)
  = inr (PDict [("data", PDict Sim.keys_value); ("success", PBool true)]).
Proof. reflexivity. Qed.

End AzureInvoker.

(** ** Properties of the handlers *)

Module AzureHandlers.
Import Py Azure Spec.

(** [run_az_command], whole: it returns a success or a failure result
    and leaves one more process behind. *)
Lemma run_az_command_eq (h : host) (args : list string) (pj : bool) (w : world) :
  exists v,
    run_az_command h args pj w
    = (inr v, {| printed := printed w;
                 spawned := (spawned w ++ [az_call args pj])%list |})
    /\ ((exists data, v = success_of data) \/ (exists message, v = failure_of message)).
Proof.
  pose proof (AzureInvoker.run_az_command_world h args pj w) as Hw.
  destruct (run_az_command h args pj w) as [r w'] eqn:E. cbn in Hw. subst w'.
  revert E. AzureInvoker.run_cases h w args pj.
  - destruct (rc0 =? 0)%Z; cbn.
    + destruct (pj && strip_nonempty out0).
      * destruct (json_loads h out0); intros [= <-]; eexists; split; eauto.
      * intros [= <-]; eexists; split; eauto.
    + intros [= <-]; eexists; split; eauto.
  - intros [= <-]; eexists; split; eauto.
  - intros [= <-]; eexists; split; eauto.
Qed.

Ltac step_run h args pj w v Hv Hshape :=
  destruct (run_az_command_eq h args pj w) as [v [Hv Hshape]];
  unfold bind at 1; rewrite Hv.

Lemma str_take_length (n : nat) (s : string) :
  String.length (str_take n s) = Nat.min n (String.length s).
Proof.
  revert s; induction n as [|n IH]; intros [|c s]; cbn; auto.
Qed.

Lemma str_take_prefix (n : nat) (s : string) :
  String.prefix (str_take n s) s = true.
Proof.
  revert s; induction n as [|n IH]; intros [|c s]; cbn; auto.
  rewrite IH. destruct (ascii_dec c c); congruence.
Qed.

(** What is shown of a secret is at most [prefix_length] of its leading
    characters, and differs from the secret when that is longer. *)
Lemma shown_key_is_a_prefix (secret : string) :
  shown_key secret = str_take 20 secret ++ "..."
  /\ (String.length (str_take 20 secret) <= 20)%nat
  /\ String.prefix (str_take 20 secret) secret = true
  /\ ((20 < String.length secret)%nat ->
      String.length (str_take 20 secret) = 20%nat /\ str_take 20 secret <> secret).
Proof.
  split; [reflexivity|]. split; [rewrite str_take_length; lia|].
  split; [apply str_take_prefix|].
  intros Hlong.
  assert (Hlen : String.length (str_take 20 secret) = 20%nat)
    by (rewrite str_take_length; lia).
  split; [exact Hlen|]. intros Heq. rewrite Heq in Hlen. lia.
Qed.

(** The lines [get_cognitive_keys] prints for a listing it could decode. *)
Lemma get_cognitive_keys_prints (h : host) (name group : string) (w : world)
    (keys : list (string * pyval)) (secret1 secret2 : string) :
  fst (run_az_command h
         ["cognitiveservices"; "account"; "keys"; "list";
          "--name"; name; "--resource-group"; group] true w)
  = inr (success_of (PDict keys)) ->
  get (PDict keys) "key1" (PStr "N/A") = inr (PStr secret1) ->
  get (PDict keys) "key2" (PStr "N/A") = inr (PStr secret2) ->
  get_cognitive_keys h name group w
  = (inr (PDict keys),
     {| printed := app (printed w)
                     [nl ++ "🔑 API Keys for " ++ name ++ ":";
                      str_mul "-" 60;
                      "  Key1: " ++ shown_key secret1;
                      "  Key2: " ++ shown_key secret2];
        spawned := app (spawned w)
                     [az_call ["cognitiveservices"; "account"; "keys"; "list";
                               "--name"; name; "--resource-group"; group] true] |}).
Proof.
  intros Hrun Hk1 Hk2. unfold get_cognitive_keys.
  step_run h ["cognitiveservices"; "account"; "keys"; "list";
              "--name"; name; "--resource-group"; group] true w v Hv Hshape.
  rewrite Hv in Hrun. cbn in Hrun. injection Hrun as ->.
  unfold bind, lift, print, ret.
  cbn [getitem assoc success_of String.eqb Ascii.eqb Bool.eqb truthy fst snd printed spawned].
  rewrite Hk1, Hk2. cbn. rewrite <- !app_assoc. reflexivity.
Qed.

(** The loop of [get_storage_keys] prints one line per key and nothing
    else. *)
Lemma storage_loop_prints (h : host) (entries : list pyval)
    (keys : list (string * string)) :
  Forall2 lists_key entries keys ->
  forall w,
    for_each entries (fun key =>
      key_name <- lift (getitem key "keyName") ;;
      value <- lift (getitem key "value") ;;
      shown <- lift (slice_to 20 value) ;;
      print ("  " ++ fmt h key_name ++ ": " ++ fmt h shown ++ "...")) w
    = (inr tt, {| printed := app (printed w) (map storage_line keys);
                  spawned := spawned w |}).
Proof.
  induction 1 as [|entry key entries keys [Hname Hvalue] _ IH]; intros w.
  - cbn. rewrite app_nil_r. destruct w; reflexivity.
  - cbn [for_each]. unfold bind at 1. unfold bind at 1, lift at 1.
    rewrite Hname. unfold bind at 1, lift at 1. rewrite Hvalue.
    unfold bind at 1, lift at 1. cbn [slice_to fmt print].
    rewrite IH. cbn. rewrite <- app_assoc. reflexivity.
Qed.

(** The lines [get_storage_keys] prints for a listing it could decode. *)
Lemma get_storage_keys_prints (h : host) (account group : string) (w : world)
    (entries : list pyval) (keys : list (string * string)) :
  fst (run_az_command h
         ["storage"; "account"; "keys"; "list";
          "--account-name"; account; "--resource-group"; group] true w)
  = inr (success_of (PList entries)) ->
  Forall2 lists_key entries keys ->
  get_storage_keys h account group w
  = (inr (PList entries),
     {| printed := app (printed w)
                     ((nl ++ "🔑 Storage Keys for " ++ account ++ ":")
                      :: str_mul "-" 60
                      :: map storage_line keys);
        spawned := app (spawned w)
                     [az_call ["storage"; "account"; "keys"; "list";
                               "--account-name"; account;
                               "--resource-group"; group] true] |}).
Proof.
  intros Hrun Hkeys. unfold get_storage_keys.
  step_run h ["storage"; "account"; "keys"; "list";
              "--account-name"; account; "--resource-group"; group] true w v Hv Hshape.
  rewrite Hv in Hrun. cbn in Hrun. injection Hrun as ->.
  unfold bind at 1, lift at 1.
  cbn [getitem assoc success_of String.eqb Ascii.eqb Bool.eqb truthy].
  unfold bind at 1, lift at 1. cbn [getitem assoc String.eqb Ascii.eqb Bool.eqb].
  unfold bind at 1, print at 1. unfold bind at 1, print at 1.
  unfold bind at 1, lift at 1. cbn [iterate].
  unfold bind at 1. rewrite (storage_loop_prints h entries keys Hkeys).
  cbn. rewrite <- !app_assoc. reflexivity.
Qed.

(** C6. For a key listing that succeeded and was decoded, the lines
    [get_cognitive_keys] and [get_storage_keys] print show, of every
    secret, [shown_key]: at most its first 20 characters followed by the
    marker [...].  The fragment shown is a prefix of the secret, and when
    the secret is longer than 20 characters it is exactly 20 characters
    long and is not the secret. *)
Theorem key_display_is_truncated (h : host) :
  (forall name group w keys secret1 secret2,
      fst (run_az_command h
             ["cognitiveservices"; "account"; "keys"; "list";
              "--name"; name; "--resource-group"; group] true w)
      = inr (success_of (PDict keys)) ->
      get (PDict keys) "key1" (PStr "N/A") = inr (PStr secret1) ->
      get (PDict keys) "key2" (PStr "N/A") = inr (PStr secret2) ->
      printed (snd (get_cognitive_keys h name group w))
      = app (printed w)
            [nl ++ "🔑 API Keys for " ++ name ++ ":";
             str_mul "-" 60;
             "  Key1: " ++ shown_key secret1;
             "  Key2: " ++ shown_key secret2])
  /\ (forall account group w entries keys,
         fst (run_az_command h
                ["storage"; "account"; "keys"; "list";
                 "--account-name"; account; "--resource-group"; group] true w)
         = inr (success_of (PList entries)) ->
         Forall2 lists_key entries keys ->
         printed (snd (get_storage_keys h account group w))
         = app (printed w)
               ((nl ++ "🔑 Storage Keys for " ++ account ++ ":")
                :: str_mul "-" 60
                :: map (fun key => "  " ++ fst key ++ ": " ++ shown_key (snd key)) keys))
  /\ (forall secret,
         shown_key secret = str_take 20 secret ++ "..."
         /\ (String.length (str_take 20 secret) <= 20)%nat
         /\ String.prefix (str_take 20 secret) secret = true
         /\ ((20 < String.length secret)%nat ->
             String.length (str_take 20 secret) = 20%nat
             /\ str_take 20 secret <> secret)).
Proof.
  split; [|split].
  - intros name group w keys secret1 secret2 Hrun Hk1 Hk2.
    rewrite (get_cognitive_keys_prints h name group w keys secret1 secret2 Hrun Hk1 Hk2).
    reflexivity.
  - intros account group w entries keys Hrun Hkeys.
    rewrite (get_storage_keys_prints h account group w entries keys Hrun Hkeys).
    reflexivity.
  - apply shown_key_is_a_prefix.
Qed.

(** The two listings at work, on keys of 32 characters. *)
Lemma key_display_is_truncated_example :
  printed (snd (get_cognitive_keys
                  (Sim.azure_host (Completed 0 Sim.keys_text "")
                     [(Sim.keys_text, PDict Sim.keys_value)])
                  "my-ai" "my-group" start))
  = [nl ++ "🔑 API Keys for my-ai:";
     "------------------------------------------------------------";
     "  Key1: 0123456789abcdef0123...";
     "  Key2: fedcba9876543210fedc..."]
  /\ printed (snd (get_storage_keys
                     (Sim.azure_host (Completed 0 Sim.storage_text "")
                        [(Sim.storage_text, PList (map Sim.storage_entry Sim.storage_value))])
                     "mystore" "my-group" start))
     = [nl ++ "🔑 Storage Keys for mystore:";
        "------------------------------------------------------------";
        "  key1: 0123456789abcdef0123..."].
Proof.
  split.
  - apply (proj1 (key_display_is_truncated
                    (Sim.azure_host (Completed 0 Sim.keys_text "")
                       [(Sim.keys_text, PDict Sim.keys_value)]))
             "my-ai" "my-group" start Sim.keys_value Sim.key1 Sim.key2);
      reflexivity.
  - apply (proj1 (proj2 (key_display_is_truncated
                    (Sim.azure_host (Completed 0 Sim.storage_text "")
                       [(Sim.storage_text, PList (map Sim.storage_entry Sim.storage_value))])))
             "mystore" "my-group" start
             (map Sim.storage_entry Sim.storage_value) Sim.storage_value).
    + reflexivity.
    + repeat constructor.
Defined.

Ltac crunch :=
  repeat (cbn;
          match goal with
          | |- context [match ?x with _ => _ end] => destruct x eqn:?
          end);
  cbn; try reflexivity.

(** [get_cognitive_keys] starts one process, the key listing, however the
    call and the printing end. *)
Lemma get_cognitive_keys_spawns (h : host) (name group : string) (w : world) :
  spawned (snd (get_cognitive_keys h name group w))
  = app (spawned w)
        [az_call ["cognitiveservices"; "account"; "keys"; "list";
                  "--name"; name; "--resource-group"; group] true].
Proof.
  unfold get_cognitive_keys.
  step_run h ["cognitiveservices"; "account"; "keys"; "list";
              "--name"; name; "--resource-group"; group] true w v Hv Hshape.
  destruct Hshape as [[data ->] | [message ->]].
  - unfold bind, lift, print, ret. crunch.
  - reflexivity.
Qed.

(** C10. The OpenAI operations are aliases: [get_openai_keys] behaves as
    [get_cognitive_keys] on the same name and group, and
    [create_openai_service] as [create_cognitive_service] with the kind
    [OpenAI], the default tier and the same location: the same value
    returned, the same lines printed, the same processes started, the
    first of which is the account creation of kind [OpenAI] at that
    location. *)
Theorem openai_operations_are_aliases (h : host) (name group location : string)
    (w : world) :
  get_openai_keys h name group w = get_cognitive_keys h name group w
  /\ create_openai_service h name group location w
     = create_cognitive_service h name group "OpenAI" "S0" location w
  /\ exists later,
       spawned (snd (create_openai_service h name group location w))
       = app (spawned w)
             (az_call ["cognitiveservices"; "account"; "create";
                       "--name"; name; "--resource-group"; group;
                       "--kind"; "OpenAI"; "--sku"; "S0";
                       "--location"; location; "--yes"] true
              :: later).
Proof.
  split; [reflexivity|]. split; [reflexivity|].
  unfold create_openai_service, create_cognitive_service.
  step_run h ["cognitiveservices"; "account"; "create";
              "--name"; name; "--resource-group"; group;
              "--kind"; "OpenAI"; "--sku"; "S0";
              "--location"; location; "--yes"] true w v Hv Hshape.
  destruct Hshape as [[data ->] | [message ->]].
  - unfold bind at 1, lift at 1. cbn [getitem assoc success_of String.eqb Ascii.eqb Bool.eqb truthy].
    unfold bind at 1, print at 1.
    rewrite get_cognitive_keys_spawns. cbn [spawned].
    rewrite <- app_assoc. eexists. reflexivity.
  - exists []. reflexivity.
Qed.

End AzureHandlers.

(** ** Properties of the two dispatchers *)

Module Dispatch.
Import Py Spec.

Lemma assoc_not_in {A : Type} (k : string) (kvs : list (string * A)) :
  ~ In k (map fst kvs) -> assoc k kvs = None.
Proof.
  induction kvs as [|[k' v] kvs IH]; cbn; intros Hnot; [reflexivity|].
  destruct (String.eqb_spec k' k) as [->|_].
  - exfalso. apply Hnot. now left.
  - apply IH. intros Hin. apply Hnot. now right.
Qed.

(** The keys of the [commands] table do not depend on the arguments. *)
Lemma command_table_keys (h : Azure.host) (args : list string) :
  map fst (Azure.commands h args) = Azure.command_names.
Proof. reflexivity. Qed.

(** The line the cloud tool prints names every key of its table, and the
    line the browser tool prints names every command of its chain. *)
Lemma available_lists_all_commands :
  "Available: " ++ join ", " Azure.command_names
  = "Available: login, account, list_subscriptions, list_groups, list_resources, get_keys, create_resource_group, create_cognitive, create_storage, create_openai, list_deployments"
  /\ "Commands: " ++ join ", " Browser.command_names
     = "Commands: search, screenshot, get_text, get_html".
Proof. split; reflexivity. Qed.

Lemma azure_unknown_command (h : Azure.host) (prog first : string)
    (args : list string) (w : Azure.world) :
  ~ In (lower first) Azure.command_names ->
  Azure.main h (prog :: first :: args) w
  = (inr tt,
     {| Azure.printed :=
          app (Azure.printed w)
              ["Unknown command: " ++ lower first;
               "Available: " ++ join ", " Azure.command_names];
        Azure.spawned := Azure.spawned w |}).
Proof.
  intros Hnot. unfold Azure.main.
  rewrite (assoc_not_in (lower first) (Azure.commands h args))
    by (rewrite command_table_keys; exact Hnot).
  rewrite command_table_keys.
  unfold Azure.bind, Azure.print. cbn [fst snd Azure.printed Azure.spawned].
  rewrite <- app_assoc. reflexivity.
Qed.

Lemma browser_unknown_command (h : Browser.host) (sys_argv : list string)
    (w : Browser.world) :
  (2 <= length sys_argv)%nat ->
  ~ In (nth 1 sys_argv "") Browser.command_names ->
  Browser.main h sys_argv w
  = (inr tt,
     {| Browser.playwright := Browser.playwright w;
        Browser.browser := Browser.browser w;
        Browser.requests := Browser.requests w;
        Browser.printed :=
          app (Browser.printed w) (browser_fallback (nth 1 sys_argv "")) |}).
Proof.
  intros Hlen Hnot. unfold Browser.main.
  destruct (Nat.ltb_spec (length sys_argv) 2) as [Hlt|_]; [lia|].
  assert (Hne : forall c, In c Browser.command_names -> (nth 1 sys_argv "" =? c) = false).
  { intros c Hin. destruct (String.eqb_spec (nth 1 sys_argv "") c) as [E|_]; [|reflexivity].
    exfalso. apply Hnot. rewrite E. exact Hin. }
  rewrite !Hne by (cbn; tauto). cbn [andb].
  unfold Browser.bind, Browser.print, browser_fallback.
  cbn [fst snd Browser.printed Browser.requests Browser.playwright Browser.browser].
  rewrite <- app_assoc. reflexivity.
Qed.

(** C3. A command that is not in the table of its tool (for the cloud
    tool the command is the first argument in lower case, as [main] looks
    it up) makes the dispatcher print the name and then the line listing
    every command of the table, start no process and make no request to
    the browser, and return, so that the process ends with status 0. *)
Theorem unknown_command_lists_commands :
  (forall (h : Azure.host) (prog first : string) (args : list string) (w : Azure.world),
      ~ In (lower first) (map fst (Azure.commands h args)) ->
      Azure.main h (prog :: first :: args) w
      = (inr tt,
         {| Azure.printed :=
              app (Azure.printed w)
                  ["Unknown command: " ++ lower first;
                   "Available: login, account, list_subscriptions, list_groups, list_resources, get_keys, create_resource_group, create_cognitive, create_storage, create_openai, list_deployments"];
            Azure.spawned := Azure.spawned w |})
      /\ Azure.exit_status (Azure.main h (prog :: first :: args) w) = 0%Z)
  /\ (forall (h : Browser.host) (prog command : string) (args : list string)
             (w : Browser.world),
         ~ In command Browser.command_names ->
         Browser.main h (prog :: command :: args) w
         = (inr tt,
            {| Browser.playwright := Browser.playwright w;
               Browser.browser := Browser.browser w;
               Browser.requests := Browser.requests w;
               Browser.printed :=
                 app (Browser.printed w)
                     ["Unknown command or missing arguments: " ++ command;
                      "Commands: search, screenshot, get_text, get_html"] |})
         /\ Browser.exit_status (Browser.main h (prog :: command :: args) w) = 0%Z).
Proof.
  split.
  - intros h prog first args w Hnot. rewrite command_table_keys in Hnot.
    rewrite (azure_unknown_command h prog first args w Hnot).
    split; reflexivity.
  - intros h prog command args w Hnot.
    rewrite (browser_unknown_command h (prog :: command :: args) w);
      [split; reflexivity | cbn; lia | exact Hnot].
Qed.

(** Both dispatchers on a name neither knows. *)
Lemma unknown_command_lists_commands_example :
  Azure.main (Sim.azure_host Sim.not_logged_in []) ["azure_automation.py"; "Delete_All"]
    Azure.start
  = (inr tt,
     {| Azure.printed :=
          ["Unknown command: delete_all";
           "Available: login, account, list_subscriptions, list_groups, list_resources, get_keys, create_resource_group, create_cognitive, create_storage, create_openai, list_deployments"];
        Azure.spawned := [] |})
  /\ Browser.main (Sim.browser_host "" "") ["browser_tool.py"; "fill_form"; "https://example.com"]
       Browser.start
     = (inr tt,
        {| Browser.playwright := false; Browser.browser := false;
           Browser.requests := [];
           Browser.printed :=
             ["Unknown command or missing arguments: fill_form";
              "Commands: search, screenshot, get_text, get_html"] |}).
Proof.
  split.
  - apply (proj1 unknown_command_lists_commands
             (Sim.azure_host Sim.not_logged_in []) "azure_automation.py" "Delete_All" []
             Azure.start).
    cbn. intuition discriminate.
  - apply (proj2 unknown_command_lists_commands
             (Sim.browser_host "" "") "browser_tool.py" "fill_form" ["https://example.com"]
             Browser.start).
    cbn. intuition discriminate.
Defined.

Ltac split_in H :=
  cbn [In Azure.command_names Browser.command_names] in H;
  repeat (destruct H as [H | H]); [.. | contradiction].

(** The cloud tool with too few arguments: the guard of the command
    prints its usage string and starts nothing. *)
Lemma azure_too_few_arguments (h : Azure.host) (prog first : string)
    (args : list string) (w : Azure.world) :
  In (lower first) Azure.command_names ->
  (length args < Azure.required_args (lower first))%nat ->
  exists text,
    usage_of (lower first) = Some text
    /\ prints_usage_of (lower first) [text] = true
    /\ Azure.main h (prog :: first :: args) w
       = (inr tt,
          {| Azure.printed := app (Azure.printed w) [text];
             Azure.spawned := Azure.spawned w |}).
Proof.
  intros Hin Hlen. unfold Azure.main.
  remember (lower first) as command eqn:Hc. clear Hc.
  split_in Hin; subst command; cbn in Hlen; try lia;
    destruct args as [|a0 [|a1 [|a2 rest]]]; cbn in Hlen; try lia;
    (eexists; split; [reflexivity | split; [reflexivity|]]);
    lazy [assoc Azure.commands String.eqb Ascii.eqb Bool.eqb Azure.usage
          Azure.bind Azure.print Azure.ret];
    cbn [Azure.printed Azure.spawned]; reflexivity.
Qed.

(** The browser tool with too few arguments: no guard of the chain holds,
    and the final branch prints what it prints for an unknown name. *)
Lemma browser_too_few_arguments (h : Browser.host) (prog command : string)
    (args : list string) (w : Browser.world) :
  In command Browser.command_names ->
  (length args < Browser.required_args command)%nat ->
  Browser.main h (prog :: command :: args) w
  = (inr tt,
     {| Browser.playwright := Browser.playwright w;
        Browser.browser := Browser.browser w;
        Browser.requests := Browser.requests w;
        Browser.printed := app (Browser.printed w) (browser_fallback command) |}).
Proof.
  intros Hin Hlen.
  split_in Hin; subst command; cbn in Hlen;
    destruct args as [|a0 [|a1 rest]]; cbn in Hlen; try lia;
    unfold Browser.main; cbn; unfold Browser.bind, Browser.print; cbn;
    rewrite <- app_assoc; reflexivity.
Qed.

(** C4, as the code has it.  A command of the cloud tool given fewer
    positional arguments than it requires prints its own usage string,
    [Usage: <command> ...], and nothing else.  A command of the browser
    tool given fewer than it requires prints no usage string of its own
    but the two lines of the final branch, [Unknown command or missing
    arguments: <command>] and the list of commands.  In both tools no
    process is started and no request reaches the browser, and [main]
    returns. *)
Theorem too_few_arguments :
  (forall (h : Azure.host) (prog first : string) (args : list string) (w : Azure.world),
      In (lower first) Azure.command_names ->
      (length args < Azure.required_args (lower first))%nat ->
      exists text,
        usage_of (lower first) = Some text
        /\ prints_usage_of (lower first) [text] = true
        /\ Azure.main h (prog :: first :: args) w
           = (inr tt,
              {| Azure.printed := app (Azure.printed w) [text];
                 Azure.spawned := Azure.spawned w |}))
  /\ (forall (h : Browser.host) (prog command : string) (args : list string)
             (w : Browser.world),
         In command Browser.command_names ->
         (length args < Browser.required_args command)%nat ->
         Browser.main h (prog :: command :: args) w
         = (inr tt,
            {| Browser.playwright := Browser.playwright w;
               Browser.browser := Browser.browser w;
               Browser.requests := Browser.requests w;
               Browser.printed :=
                 app (Browser.printed w)
                     ["Unknown command or missing arguments: " ++ command;
                      "Commands: search, screenshot, get_text, get_html"] |})).
Proof.
  split.
  - apply azure_too_few_arguments.
  - apply browser_too_few_arguments.
Qed.

(** [get_keys] with two arguments, [screenshot] with one. *)
Lemma too_few_arguments_example :
  Azure.main (Sim.azure_host Sim.not_logged_in [])
    ["azure_automation.py"; "get_keys"; "openai"; "my-ai"] Azure.start
  = (inr tt,
     {| Azure.printed := ["Usage: get_keys <type> <name> <resource_group>"];
        Azure.spawned := [] |})
  /\ Browser.main (Sim.browser_host "" "")
       ["browser_tool.py"; "screenshot"; "https://example.com"] Browser.start
     = (inr tt,
        {| Browser.playwright := false; Browser.browser := false;
           Browser.requests := [];
           Browser.printed :=
             ["Unknown command or missing arguments: screenshot";
              "Commands: search, screenshot, get_text, get_html"] |}).
Proof.
  split.
  - destruct (proj1 too_few_arguments (Sim.azure_host Sim.not_logged_in [])
                "azure_automation.py" "get_keys" ["openai"; "my-ai"] Azure.start)
      as [text [Husage [_ Hmain]]].
    + vm_compute. tauto.
    + vm_compute. lia.
    + injection Husage as <-. exact Hmain.
  - apply (proj2 too_few_arguments (Sim.browser_host "" "")
             "browser_tool.py" "screenshot" ["https://example.com"] Browser.start).
    + vm_compute. tauto.
    + vm_compute. lia.
Defined.

(** C4 as stated fails for the browser tool: [screenshot] needs a URL and
    an output path, and given the URL alone the tool prints no usage line
    of [screenshot]: what it prints is, word for word, what it prints for
    a command it does not know. *)
Lemma browser_prints_no_usage_string :
  let run := Browser.main (Sim.browser_host "" "")
               ["browser_tool.py"; "screenshot"; "https://example.com"] Browser.start in
  (length ["https://example.com"] < Browser.required_args "screenshot")%nat
  /\ Browser.printed (snd run)
     = ["Unknown command or missing arguments: screenshot";
        "Commands: search, screenshot, get_text, get_html"]
  /\ prints_usage_of "screenshot" (Browser.printed (snd run)) = false
  /\ Browser.printed (snd run) = browser_fallback "screenshot".
Proof.
  cbv zeta. repeat split. cbn. lia.
Qed.

(** With exactly the arguments a command requires, its handler runs: the
    cloud tool starts [az], the browser tool opens a session. *)
Example get_keys_with_three_arguments :
  Azure.main (Sim.azure_host Sim.not_logged_in [])
    ["azure_automation.py"; "get_keys"; "openai"; "my-ai"; "my-group"] Azure.start
  = (inr tt,
     {| Azure.printed := ["❌ Error: ERROR: Please run 'az login' to setup account."];
        Azure.spawned :=
          [az_call ["cognitiveservices"; "account"; "keys"; "list";
                    "--name"; "my-ai"; "--resource-group"; "my-group"] true] |}).
Proof. reflexivity. Qed.

Example create_resource_group_with_one_argument :
  Azure.spawned (snd (Azure.main (Sim.azure_host Sim.not_logged_in [])
                   ["azure_automation.py"; "create_resource_group"; "my-group"] Azure.start))
  = [az_call ["group"; "create"; "--name"; "my-group"; "--location"; "eastus"] true].
Proof. reflexivity. Qed.

Example create_cognitive_with_two_arguments :
  Azure.spawned (snd (Azure.main (Sim.azure_host Sim.not_logged_in [])
                   ["azure_automation.py"; "create_cognitive"; "my-ai"; "my-group"]
                   Azure.start))
  = [az_call ["cognitiveservices"; "account"; "create"; "--name"; "my-ai";
              "--resource-group"; "my-group"; "--kind"; "CognitiveServices";
              "--sku"; "S0"; "--location"; "eastus"; "--yes"] true].
Proof. reflexivity. Qed.

Example create_storage_with_two_arguments :
  Azure.spawned (snd (Azure.main (Sim.azure_host Sim.not_logged_in [])
                   ["azure_automation.py"; "create_storage"; "mystore"; "my-group"]
                   Azure.start))
  = [az_call ["storage"; "account"; "create"; "--name"; "mystore";
              "--resource-group"; "my-group"; "--sku"; "Standard_LRS";
              "--location"; "eastus"] true].
Proof. reflexivity. Qed.

Example create_openai_with_two_arguments :
  Azure.spawned (snd (Azure.main (Sim.azure_host Sim.not_logged_in [])
                   ["azure_automation.py"; "create_openai"; "my-ai"; "my-group"]
                   Azure.start))
  = [az_call ["cognitiveservices"; "account"; "create"; "--name"; "my-ai";
              "--resource-group"; "my-group"; "--kind"; "OpenAI";
              "--sku"; "S0"; "--location"; "eastus"; "--yes"] true].
Proof. reflexivity. Qed.

Example list_deployments_with_two_arguments :
  Azure.spawned (snd (Azure.main (Sim.azure_host Sim.not_logged_in [])
                   ["azure_automation.py"; "list_deployments"; "my-ai"; "my-group"]
                   Azure.start))
  = [az_call ["cognitiveservices"; "account"; "deployment"; "list"; "--name"; "my-ai";
              "--resource-group"; "my-group"] true].
Proof. reflexivity. Qed.

Example screenshot_with_two_arguments :
  Browser.requests (snd (Browser.main (Sim.browser_host "" "")
                      ["browser_tool.py"; "screenshot"; "https://example.com"; "out.png"]
                      Browser.start))
  = [Browser.Start; Browser.Launch true; Browser.NewPage;
     Browser.Goto "https://example.com"; Browser.WaitForLoadState "networkidle";
     Browser.Screenshot "out.png" true; Browser.Close; Browser.Now; Browser.Stop].
Proof. reflexivity. Qed.

Example search_joins_its_arguments :
  Browser.requests (snd (Browser.main (Sim.browser_host "" "")
                      ["browser_tool.py"; "search"; "rocq"; "prover"] Browser.start))
  = [Browser.Start; Browser.Launch true; Browser.NewPage;
     Browser.Goto "https://www.google.com/search?q=rocq prover";
     Browser.WaitForLoadState "networkidle";
     Browser.Evaluate Browser.search_script; Browser.Close; Browser.Now; Browser.Stop].
Proof. reflexivity. Qed.

(** *** With enough arguments the handler runs *)

Lemma spawns_ret {A : Type} (a : A) : spawns (Azure.ret a).
Proof. intros w. exists []. cbn. now rewrite app_nil_r. Qed.

Lemma spawns_lift {A : Type} (r : result A) : spawns (Azure.lift r).
Proof. intros w. exists []. cbn. now rewrite app_nil_r. Qed.

Lemma spawns_print (line : string) : spawns (Azure.print line).
Proof. intros w. exists []. cbn. now rewrite app_nil_r. Qed.

Lemma spawns_bind {A B : Type} (c : Azure.M A) (k : A -> Azure.M B) :
  spawns c -> (forall a, spawns (k a)) -> spawns (Azure.bind c k).
Proof.
  intros Hc Hk w. destruct (Hc w) as [l1 E1]. unfold Azure.bind.
  destruct (c w) as [[e|a] w1]; cbn in *.
  - now exists l1.
  - destruct (Hk a w1) as [l2 E2]. exists (l1 ++ l2)%list.
    rewrite E2, E1. now rewrite app_assoc.
Qed.

Lemma spawns_run_az_command (h : Azure.host) (args : list string) (pj : bool) :
  spawns (Azure.run_az_command h args pj).
Proof.
  intros w. exists [az_call args pj].
  now rewrite AzureInvoker.run_az_command_world.
Qed.

Lemma spawns_for_each (xs : list pyval) (body : pyval -> Azure.M unit) :
  (forall x, spawns (body x)) -> spawns (Azure.for_each xs body).
Proof.
  intros Hbody. induction xs as [|x xs IH]; cbn [Azure.for_each].
  - apply spawns_ret.
  - apply spawns_bind; [apply Hbody | intros _; exact IH].
Qed.

Lemma calls_az_first (h : Azure.host) (args : list string) (pj : bool) {B : Type}
    (k : pyval -> Azure.M B) :
  (forall v, spawns (k v)) -> calls_az (Azure.bind (Azure.run_az_command h args pj) k).
Proof.
  intros Hk w.
  destruct (AzureHandlers.run_az_command_eq h args pj w) as [v [Hv _]].
  unfold Azure.bind. rewrite Hv.
  destruct (Hk v {| Azure.printed := Azure.printed w;
                    Azure.spawned := app (Azure.spawned w) [az_call args pj] |})
    as [later E].
  exists (az_call args pj), later. rewrite E. cbn. now rewrite <- app_assoc.
Qed.

Lemma calls_az_after_print (line : string) {B : Type} (c : Azure.M B) :
  calls_az c -> calls_az (Azure.bind (Azure.print line) (fun _ => c)).
Proof.
  intros Hc w. unfold Azure.bind, Azure.print.
  destruct (Hc {| Azure.printed := app (Azure.printed w) [line];
                  Azure.spawned := Azure.spawned w |}) as [call [later E]].
  exists call, later. exact E.
Qed.

Lemma calls_az_then {A B : Type} (c : Azure.M A) (k : A -> Azure.M B) :
  calls_az c -> (forall a, spawns (k a)) -> calls_az (Azure.bind c k).
Proof.
  intros Hc Hk w. destruct (Hc w) as [call [l1 E1]]. unfold Azure.bind.
  destruct (c w) as [[e|a] w1]; cbn in *.
  - now exists call, l1.
  - destruct (Hk a w1) as [l2 E2]. exists call, (l1 ++ l2)%list.
    rewrite E2, E1. now rewrite <- app_assoc.
Qed.

Ltac spawns_tac h :=
  repeat first
    [ apply spawns_ret
    | apply spawns_lift
    | apply spawns_print
    | apply (spawns_run_az_command h)
    | apply spawns_for_each; intros ?
    | apply spawns_bind; [|intros ?]
    | match goal with
      | |- spawns (if ?b then _ else _) => destruct b
      | |- spawns (match ?x with _ => _ end) => destruct x
      end ].

Lemma spawns_get_cognitive_keys (h : Azure.host) (name group : string) :
  spawns (Azure.get_cognitive_keys h name group).
Proof. unfold Azure.get_cognitive_keys. spawns_tac h. Qed.

Lemma spawns_get_storage_keys (h : Azure.host) (name group : string) :
  spawns (Azure.get_storage_keys h name group).
Proof. unfold Azure.get_storage_keys. spawns_tac h. Qed.

Lemma spawns_list_subscriptions (h : Azure.host) : spawns (Azure.list_subscriptions h).
Proof. unfold Azure.list_subscriptions. spawns_tac h. Qed.

Ltac calls_az_tac h :=
  first [ apply calls_az_first; intros ?
        | apply calls_az_after_print; apply calls_az_first; intros ? ];
  spawns_tac h;
  first [ apply spawns_get_cognitive_keys
        | apply spawns_get_storage_keys
        | apply spawns_list_subscriptions ].

(** X13. A command of the cloud tool given at least the arguments it requires
    starts [az] ([get_keys] when its first argument is one of the three
    resource types it knows; otherwise it reports the type and starts
    nothing). *)
Lemma azure_enough_arguments (h : Azure.host) (prog first : string)
    (args : list string) (w : Azure.world) :
  In (lower first) Azure.command_names ->
  (Azure.required_args (lower first) <= length args)%nat ->
  (lower first = "get_keys" ->
   In (lower (hd "" args)) (map fst (Azure.type_map h))) ->
  exists call later,
    Azure.spawned (snd (Azure.main h (prog :: first :: args) w))
    = app (Azure.spawned w) (call :: later).
Proof.
  intros Hin Hlen Htype. unfold Azure.main.
  remember (lower first) as command eqn:Hc. clear Hc.
  split_in Hin; subst command; cbn in Hlen;
    cbn [assoc Azure.commands String.eqb Ascii.eqb Bool.eqb].
  - apply calls_az_then; [|intros ?; apply spawns_ret].
    unfold Azure.login. calls_az_tac h.
  - apply calls_az_then; [|intros ?; apply spawns_ret].
    unfold Azure.get_account_info. calls_az_tac h.
  - apply calls_az_then; [|intros ?; apply spawns_ret].
    unfold Azure.list_subscriptions. calls_az_tac h.
  - apply calls_az_then; [|intros ?; apply spawns_ret].
    unfold Azure.list_resource_groups. calls_az_tac h.
  - apply calls_az_then; [|intros ?; apply spawns_ret].
    unfold Azure.list_resources. calls_az_tac h.
  - destruct args as [|a0 [|a1 [|a2 rest]]]; cbn in Hlen; try lia.
    apply calls_az_then; [|intros ?; apply spawns_ret].
    specialize (Htype eq_refl). cbn [hd map fst Azure.type_map In] in Htype.
    unfold Azure.get_keys. cbn [assoc Azure.type_map].
    destruct Htype as [<- | [<- | [<- | []]]];
      cbn [assoc String.eqb Ascii.eqb Bool.eqb];
      [unfold Azure.get_cognitive_keys
      |unfold Azure.get_openai_keys, Azure.get_cognitive_keys
      |unfold Azure.get_storage_keys]; calls_az_tac h.
  - destruct args as [|a0 rest]; cbn in Hlen; try lia.
    apply calls_az_then; [|intros ?; apply spawns_ret].
    unfold Azure.create_resource_group. calls_az_tac h.
  - destruct args as [|a0 [|a1 rest]]; cbn in Hlen; try lia.
    apply calls_az_then; [|intros ?; apply spawns_ret].
    unfold Azure.create_cognitive_service. calls_az_tac h.
  - destruct args as [|a0 [|a1 rest]]; cbn in Hlen; try lia.
    apply calls_az_then; [|intros ?; apply spawns_ret].
    unfold Azure.create_storage_account. calls_az_tac h.
  - destruct args as [|a0 [|a1 rest]]; cbn in Hlen; try lia.
    apply calls_az_then; [|intros ?; apply spawns_ret].
    unfold Azure.create_openai_service, Azure.create_cognitive_service. calls_az_tac h.
  - destruct args as [|a0 [|a1 rest]]; cbn in Hlen; try lia.
    apply calls_az_then; [|intros ?; apply spawns_ret].
    unfold Azure.list_openai_deployments. calls_az_tac h.
Qed.

(** *** Failures of [az] at the command line *)

Lemma returns_ret {A : Type} (a : A) : returns (Azure.ret a).
Proof. intros w. now exists a, w. Qed.

Lemma returns_bind {A B : Type} (c : Azure.M A) (k : A -> Azure.M B) :
  returns c -> (forall a, returns (k a)) -> returns (Azure.bind c k).
Proof.
  intros Hc Hk w. destruct (Hc w) as [a [w' E]].
  unfold Azure.bind. rewrite E. apply Hk.
Qed.

Lemma returns_print (line : string) : returns (Azure.print line).
Proof. intros w. eexists; eexists; reflexivity. Qed.

(** On a host where [az] always fails, [run_az_command] hands a failure
    result to whatever follows it. *)
Lemma returns_after_failure {A : Type} (h : Azure.host) (args : list string)
    (pj : bool) (k : pyval -> Azure.M A) :
  always_fails h ->
  (forall message, returns (k (Azure.failure_of message))) ->
  returns (Azure.bind (Azure.run_az_command h args pj) k).
Proof.
  intros Hfails Hk w.
  destruct (AzureHandlers.run_az_command_eq h args pj w) as [v [Hv _]].
  unfold Azure.bind. rewrite Hv.
  assert (Hfail : exists message, v = Azure.failure_of message).
  { apply (f_equal fst) in Hv. cbn in Hv. revert Hv.
    specialize (Hfails (Azure.spawned w) (az_call args pj)).
    AzureInvoker.run_cases h w args pj.
    - destruct (rc0 =? 0)%Z eqn:E; [apply Z.eqb_eq in E; contradiction|].
      intros [= <-]. eexists; reflexivity.
    - intros [= <-]. eexists; reflexivity.
    - intros [= <-]. eexists; reflexivity. }
  destruct Hfail as [message ->]. apply Hk.
Qed.

Ltac failing_handler Hfails :=
  repeat first
    [ apply returns_after_failure; [exact Hfails | intros ?message]
    | apply returns_bind; [apply returns_print | intros _] ];
  intros ?w; eexists; eexists; reflexivity.

(** When every [az] process fails, every handler of the table returns. *)
Lemma failing_handlers_return (h : Azure.host) (args : list string) (command : string)
    (handler : Azure.M pyval) :
  always_fails h ->
  assoc command (Azure.commands h args) = Some handler ->
  returns handler.
Proof.
  intros Hfails Hlookup. cbn [Azure.commands assoc] in Hlookup.
  repeat match type of Hlookup with
         | (if ?b then _ else _) = _ =>
             destruct b; [injection Hlookup as <- | ]
         end;
    try discriminate.
  - unfold Azure.login. failing_handler Hfails.
  - unfold Azure.get_account_info. failing_handler Hfails.
  - unfold Azure.list_subscriptions. failing_handler Hfails.
  - unfold Azure.list_resource_groups. failing_handler Hfails.
  - unfold Azure.list_resources. failing_handler Hfails.
  - destruct args as [|a0 [|a1 [|a2 rest]]];
      try (unfold Azure.usage; failing_handler Hfails).
    unfold Azure.get_keys.
    destruct (assoc (lower a0) (Azure.type_map h)) as [func|] eqn:Hfunc;
      [|failing_handler Hfails].
    cbn [Azure.type_map assoc] in Hfunc.
    repeat match type of Hfunc with
           | (if ?b then _ else _) = _ => destruct b; [injection Hfunc as <- | ]
           end;
      try discriminate.
    + unfold Azure.get_cognitive_keys. failing_handler Hfails.
    + unfold Azure.get_openai_keys, Azure.get_cognitive_keys. failing_handler Hfails.
    + unfold Azure.get_storage_keys. failing_handler Hfails.
  - destruct args as [|a0 rest];
      [unfold Azure.usage | unfold Azure.create_resource_group];
      failing_handler Hfails.
  - destruct args as [|a0 [|a1 rest]]; unfold Azure.usage; failing_handler Hfails.
  - destruct args as [|a0 [|a1 rest]]; unfold Azure.usage; failing_handler Hfails.
  - destruct args as [|a0 [|a1 rest]]; unfold Azure.usage; failing_handler Hfails.
  - destruct args as [|a0 [|a1 rest]]; unfold Azure.usage; failing_handler Hfails.
Qed.

(** X4. The part of C7 that holds: when every [az] process fails (a non-zero
    exit, a timeout, a process that cannot be started), [main] returns for
    every command line, so the process ends with status 0 and without a
    traceback. *)
Lemma failing_az_never_crashes (h : Azure.host) (sys_argv : list string)
    (w : Azure.world) :
  always_fails h ->
  (exists w', Azure.main h sys_argv w = (inr tt, w'))
  /\ Azure.exit_status (Azure.main h sys_argv w) = 0%Z.
Proof.
  intros Hfails.
  assert (Hret : returns (Azure.main h sys_argv)).
  { unfold Azure.main. destruct sys_argv as [|prog [|first args]];
      try apply returns_print.
    destruct (assoc (lower first) (Azure.commands h args)) as [handler|] eqn:Hlookup.
    - apply returns_bind; [|intros _; apply returns_ret].
      exact (failing_handlers_return h args (lower first) handler Hfails Hlookup).
    - apply returns_bind; [apply returns_print | intros _; apply returns_print]. }
  destruct (Hret w) as [[] [w' E]]. rewrite E. split; [now exists w' | reflexivity].
Qed.

(** C7 at its failing input: [az] is not logged in and exits with code 1.
    [list_groups] starts it, prints nothing about the failure and returns;
    the sibling command [list_subscriptions] prints the error text. *)
Theorem list_groups_failure_is_silent :
  let h := Sim.azure_host Sim.not_logged_in [] in
  Azure.main h ["azure_automation.py"; "list_groups"] Azure.start
  = (inr tt,
     {| Azure.printed := [];
        Azure.spawned := [az_call ["group"; "list"] true] |})
  /\ Azure.main h ["azure_automation.py"; "list_subscriptions"] Azure.start
     = (inr tt,
        {| Azure.printed := ["❌ Error: ERROR: Please run 'az login' to setup account."];
           Azure.spawned := [az_call ["account"; "list"] true] |}).
Proof. cbv zeta. split; reflexivity. Qed.

(** The commands that print nothing when [az] fails, and those that print
    the error, whatever the failure is. *)
Lemma silent_and_reporting_commands (failure : Azure.run_result) (args : list string) :
  match failure with Azure.Completed rc _ _ => rc <> 0%Z | _ => True end ->
  let h := Sim.azure_host failure [] in
  let lines command :=
    Azure.printed (snd (Azure.main h ("azure_automation.py" :: command :: args)
                          Azure.start)) in
  lines "account" = []
  /\ lines "list_groups" = []
  /\ lines "list_resources" = []
  /\ (length args = 2%nat ->
      lines "create_storage" = [] /\ lines "create_cognitive" = []
      /\ lines "create_openai" = [] /\ lines "list_deployments" = []
      /\ lines "create_resource_group" = [])
  /\ (exists message,
         lines "list_subscriptions" = ["❌ Error: " ++ message]
         /\ lines "login" = ["Opening browser for Azure login...";
                             "❌ Login failed: " ++ message]).
Proof.
  intros Hfail. cbv zeta.
  assert (Hcases :
            (exists rc out err, failure = Azure.Completed rc out err
                                /\ (rc =? 0)%Z = false)
            \/ failure = Azure.TimeoutExpired
            \/ exists msg, failure = Azure.RunRaised msg).
  { destruct failure as [rc out err| |msg]; [left|right; left|right; right];
      eauto using Z.eqb_neq.
    do 3 eexists. split; [reflexivity | now apply Z.eqb_neq]. }
  assert (Hmessage : exists message, forall earlier call,
             match Azure.subprocess_run (Sim.azure_host failure []) earlier call with
             | Azure.Completed rc _ err => (rc =? 0)%Z = false /\ err = message
             | Azure.TimeoutExpired => message = "Command timed out"
             | Azure.RunRaised msg => msg = message
             end).
  { destruct Hcases as [[rc [out [err [-> E]]]] | [-> | [msg ->]]];
      eexists; intros; cbn; eauto. }
  clear Hfail Hcases. destruct Hmessage as [message Hmessage].
  assert (Hrun : forall a pj w,
             Azure.run_az_command (Sim.azure_host failure []) a pj w
             = (inr (Azure.failure_of message),
                {| Azure.printed := Azure.printed w;
                   Azure.spawned := app (Azure.spawned w) [az_call a pj] |})).
  { intros a pj w. specialize (Hmessage (Azure.spawned w) (az_call a pj)).
    unfold Azure.run_az_command, Azure.bind, Azure.run, Azure.ret.
    unfold az_call in Hmessage. cbn [fst snd] in *.
    destruct (Azure.subprocess_run _ _ _) as [rc out err| |msg].
    - destruct Hmessage as [-> ->]. reflexivity.
    - subst message. reflexivity.
    - subst msg. reflexivity. }
  clear Hmessage.
  unfold Azure.main.
  repeat match goal with
         | |- context [lower ?c] =>
             let c' := eval vm_compute in (lower c) in change (lower c) with c'
         end.
  cbn [assoc Azure.commands String.eqb Ascii.eqb Bool.eqb].
  repeat split.
  - unfold Azure.get_account_info, Azure.bind. rewrite Hrun. reflexivity.
  - unfold Azure.list_resource_groups, Azure.bind. rewrite Hrun. reflexivity.
  - unfold Azure.list_resources, Azure.bind. rewrite Hrun. reflexivity.
  - destruct args as [|a0 [|a1 [|a2 rest]]]; try discriminate.
    unfold Azure.create_storage_account, Azure.bind. rewrite Hrun. reflexivity.
  - destruct args as [|a0 [|a1 [|a2 rest]]]; try discriminate.
    unfold Azure.create_cognitive_service, Azure.bind. rewrite Hrun. reflexivity.
  - destruct args as [|a0 [|a1 [|a2 rest]]]; try discriminate.
    unfold Azure.create_openai_service, Azure.create_cognitive_service, Azure.bind.
    rewrite Hrun. reflexivity.
  - destruct args as [|a0 [|a1 [|a2 rest]]]; try discriminate.
    unfold Azure.list_openai_deployments, Azure.bind. rewrite Hrun. reflexivity.
  - destruct args as [|a0 [|a1 [|a2 rest]]]; try discriminate.
    unfold Azure.create_resource_group, Azure.bind. rewrite Hrun. reflexivity.
  - exists message. split.
    + unfold Azure.list_subscriptions, Azure.bind. rewrite Hrun. reflexivity.
    + unfold Azure.login, Azure.bind, Azure.print. rewrite Hrun. reflexivity.
Qed.

End Dispatch.

(** ** Properties of the browser operations *)

Module BrowserOps.
Import Py Browser Spec.

Lemma grows_ret {A : Type} (a : A) : grows (ret a).
Proof. intros w. exists []. cbn. now rewrite app_nil_r. Qed.

Lemma grows_lift {A : Type} (r : result A) : grows (lift r).
Proof. intros w. exists []. cbn. now rewrite app_nil_r. Qed.

Lemma grows_call (h : host) (r : request) : grows (call h r).
Proof.
  intros w. exists [r]. unfold call.
  destruct (driver h (requests w) r); [reflexivity|].
  destruct r; reflexivity.
Qed.

Lemma grows_bind {A B : Type} (c : M A) (k : A -> M B) :
  grows c -> (forall a, grows (k a)) -> grows (bind c k).
Proof.
  intros Hc Hk w. destruct (Hc w) as [d1 E1]. unfold bind.
  destruct (c w) as [[e|a] w1]; cbn in *.
  - now exists d1.
  - destruct (Hk a w1) as [d2 E2]. exists (d1 ++ d2)%list.
    rewrite E2, E1. now rewrite app_assoc.
Qed.

(** The scope of [async with]: when entering fails nothing else is
    requested; otherwise leaving the block is requested on every path, and
    it is the last request. *)
Lemma async_with_leaves {A : Type} (h : host) (body : M A) (w : world) :
  grows body ->
  match driver h (requests w) Start with
  | inr _ =>
      exists during,
        requests (snd (async_with_playwright h body w))
        = app (requests w) (Start :: during ++ [Stop])%list
  | inl e =>
      async_with_playwright h body w = (inl e, record Start w)
  end.
Proof.
  intros Hbody. unfold async_with_playwright, call.
  destruct (driver h (requests w) Start) as [e|v]; [reflexivity|].
  destruct (Hbody (effect Start (record Start w))) as [during E].
  destruct (body (effect Start (record Start w))) as [r w2]. cbn in E.
  exists during.
  destruct (driver h (requests w2) Stop); cbn; rewrite E;
    rewrite <- !app_assoc; reflexivity.
Qed.

Ltac grows_body h :=
  repeat first
    [ apply grows_ret
    | apply grows_lift
    | apply (grows_call h)
    | apply grows_bind; [|intros ?] ].

(** Every operation is one [async with] block around a body that only
    makes requests. *)
Lemma perform_is_scoped (h : host) (op : operation) :
  exists body : M pyval, grows body /\ perform h op = async_with_playwright h body.
Proof.
  destruct op; eexists; (split; [|reflexivity]); grows_body h.
Qed.








(** Whatever follows, an [async with] block first asks to enter the
    session. *)
Lemma async_with_enters {A : Type} (h : host) (body : M A) (w : world) :
  grows body ->
  exists later,
    requests (snd (async_with_playwright h body w)) = app (requests w) (Start :: later).
Proof.
  intros Hbody. pose proof (async_with_leaves h body w Hbody) as H.
  destruct (driver h (requests w) Start) as [e|v].
  - rewrite H. exists []. reflexivity.
  - destruct H as [during E]. eexists. exact E.
Qed.

(** A command of the browser tool given at least the arguments it requires
    opens a session. *)
Lemma browser_enough_arguments (h : host) (prog command : string)
    (args : list string) (w : world) :
  In command command_names ->
  (required_args command <= length args)%nat ->
  exists later,
    requests (snd (main h (prog :: command :: args) w)) = app (requests w) (Start :: later).
Proof.
  intros Hin Hlen.
  assert (Hop : forall op : operation,
             exists later,
               requests (snd (bind (perform h op)
                                (fun result => print (json_dumps h result)) w))
               = app (requests w) (Start :: later)).
  { intros op. destruct (perform_is_scoped h op) as [body [Hbody ->]].
    destruct (async_with_enters h body w Hbody) as [later E].
    unfold bind. destruct (async_with_playwright h body w) as [[e|v] w1]; cbn in *;
      exists later; exact E. }
  cbn [In command_names] in Hin.
  destruct Hin as [<- | [<- | [<- | [<- | []]]]]; cbn in Hlen;
    destruct args as [|a0 [|a1 rest]]; cbn in Hlen; try lia.
  - exact (Hop (OpSearch (join " " [a0]))).
  - exact (Hop (OpSearch (join " " (a0 :: a1 :: rest)))).
  - exact (Hop (OpScreenshot a0 a1)).
  - exact (Hop (OpGetText a0)).
  - exact (Hop (OpGetText a0)).
  - exact (Hop (OpGetHtml a0)).
  - exact (Hop (OpGetHtml a0)).
Qed.

(** An error path, run: the page cannot be reached, [page.goto] raises,
    [browser.close()] is never requested, and the session is released by
    leaving the block. *)
Example navigation_failure_releases :
  perform Sim.unreachable_host (OpGetText "https://nowhere.invalid") start
  = (inl (LibraryError "net::ERR_NAME_NOT_RESOLVED"),
     {| playwright := false; browser := false;
        requests := [Start; Launch true; NewPage; Goto "https://nowhere.invalid"; Stop];
        printed := [] |}).
Proof. reflexivity. Qed.

(** The error reaches the top of the tool: [main] does not catch it, and
    the session is released all the same. *)
Example navigation_failure_ends_main :
  main Sim.unreachable_host ["browser_tool.py"; "get_text"; "https://nowhere.invalid"] start
  = (inl (LibraryError "net::ERR_NAME_NOT_RESOLVED"),
     {| playwright := false; browser := false;
        requests := [Start; Launch true; NewPage; Goto "https://nowhere.invalid"; Stop];
        printed := [] |}).
Proof. reflexivity. Qed.

Lemma str_take_exact (n : nat) (s : string) :
  (n < String.length s)%nat ->
  String.length (str_take n s) = n
  /\ String.prefix (str_take n s) s = true
  /\ str_take n s <> s.
Proof.
  intros Hlong.
  assert (Hlen : String.length (str_take n s) = n)
    by (rewrite AzureHandlers.str_take_length; lia).
  repeat split; [exact Hlen | apply AzureHandlers.str_take_prefix |].
  intros E. rewrite E in Hlen. lia.
Qed.

Ltac run_driver H :=
  repeat match type of H with
         | context [match driver ?h ?earlier ?r with _ => _ end] =>
             let E := fresh "Hanswer" in
             destruct (driver h earlier r) eqn:E; cbn -[slice_to] in H; try discriminate H
         end.

Ltac run_driver_on :=
  repeat match goal with
         | H : context [match driver ?h ?earlier ?r with _ => _ end] |- _ =>
             destruct (driver h earlier r); cbn -[slice_to] in H; try discriminate H
         end.

(** Whenever [get_page_text] returns, its [text] entry is the slice
    [[:5000]] of what [page.evaluate] answered. *)
Lemma get_page_text_field (h : host) (url : string) (w w' : world)
    (v text : pyval) :
  get_page_text h url w = (inr v, w') ->
  driver h (before_text url w) (Evaluate "() => document.body.innerText") = inr text ->
  exists limited, slice_to 5000 text = inr limited /\ getitem v "text" = inr limited.
Proof.
  intros Hret Hdrv. unfold before_text in Hdrv.
  unfold get_page_text, async_with_playwright, bind, call, lift, ret in Hret.
  cbn -[slice_to] in Hret. run_driver Hret.
  all: rewrite <- !app_assoc in *; cbn [app] in *.
  all: match goal with
       | H : driver _ _ (Evaluate _) = inr ?p |- _ =>
           rewrite Hdrv in H; injection H as <-
       end.
  all: destruct (slice_to 5000 text) as [?|limited] eqn:Hslice; cbn in Hret;
    try discriminate Hret.
  all: run_driver_on.
  injection Hret as <- _. exists limited. split; reflexivity.
Qed.

Ltac all_answered Hok Hdrv :=
  repeat match goal with
         | |- context [match driver ?h ?earlier ?r with _ => _ end] =>
             let E := fresh "Hanswer" in
             destruct (Hok earlier r) as [? E];
             try (rewrite <- !app_assoc in E; cbn [app] in E;
                  rewrite Hdrv in E; injection E as <-;
                  rewrite <- !app_assoc; cbn [app]; rewrite Hdrv);
             try rewrite E; cbn -[slice_to str_take]
         end.

(** ... and it does return when the driver answers every request and the
    body text is a string. *)
Lemma get_page_text_returns (h : host) (url : string) (w : world) (s : string) :
  never_raises h ->
  driver h (before_text url w) (Evaluate "() => document.body.innerText")
  = inr (PStr s) ->
  exists v w', get_page_text h url w = (inr v, w').
Proof.
  intros Hok Hdrv. unfold before_text in Hdrv.
  unfold get_page_text, async_with_playwright, bind, call, lift, ret. cbn -[slice_to].
  all_answered Hok Hdrv. cbn [slice_to]. all_answered Hok Hdrv.
  eexists; eexists; reflexivity.
Qed.

(** The same two facts for [get_page_html], its [html] entry and the
    slice [[:10000]] of what [page.content()] answered. *)
Lemma get_page_html_field (h : host) (url : string) (w w' : world)
    (v html : pyval) :
  get_page_html h url w = (inr v, w') ->
  driver h (before_html url w) Content = inr html ->
  exists limited, slice_to 10000 html = inr limited /\ getitem v "html" = inr limited.
Proof.
  intros Hret Hdrv. unfold before_html in Hdrv.
  unfold get_page_html, async_with_playwright, bind, call, lift, ret in Hret.
  cbn -[slice_to] in Hret. run_driver Hret.
  all: rewrite <- !app_assoc in *; cbn [app] in *.
  all: match goal with
       | H : driver _ _ Content = inr ?p |- _ =>
           rewrite Hdrv in H; injection H as <-
       end.
  all: match type of Hret with
       | context [slice_to ?n ?x] =>
           change n with 10000%nat in Hret;
           destruct (slice_to 10000 x) as [?|limited] eqn:Hslice
       end; cbn in Hret; try discriminate Hret.
  all: run_driver_on.
  injection Hret as <- _. exists limited. split; reflexivity.
Qed.

Lemma get_page_html_returns (h : host) (url : string) (w : world) (s : string) :
  never_raises h ->
  driver h (before_html url w) Content = inr (PStr s) ->
  exists v w', get_page_html h url w = (inr v, w').
Proof.
  intros Hok Hdrv. unfold before_html in Hdrv.
  unfold get_page_html, async_with_playwright, bind, call, lift, ret. cbn -[slice_to].
  all_answered Hok Hdrv. cbn [slice_to]. all_answered Hok Hdrv.
  eexists; eexists; reflexivity.
Qed.

(** C5. When the body text of a page is longer than 5,000 characters,
    the [text] entry of what [get_page_text] returns is exactly its first
    5,000 characters; when the markup is longer than 10,000 characters,
    the [html] entry of what [get_page_html] returns is exactly its first
    10,000 characters.  Each function does return such a result whenever
    the driver answers every request, and every result it returns has
    that entry. *)
Theorem content_is_truncated (h : host) (url : string) (w : world) :
  (forall text : string,
      driver h (before_text url w) (Evaluate "() => document.body.innerText")
      = inr (PStr text) ->
      (5000 < String.length text)%nat ->
      (forall v w', get_page_text h url w = (inr v, w') ->
                    getitem v "text" = inr (PStr (str_take 5000 text)))
      /\ (never_raises h -> exists v w', get_page_text h url w = (inr v, w'))
      /\ String.length (str_take 5000 text) = 5000%nat
      /\ String.prefix (str_take 5000 text) text = true)
  /\ (forall html : string,
         driver h (before_html url w) Content = inr (PStr html) ->
         (10000 < String.length html)%nat ->
         (forall v w', get_page_html h url w = (inr v, w') ->
                       getitem v "html" = inr (PStr (str_take 10000 html)))
         /\ (never_raises h -> exists v w', get_page_html h url w = (inr v, w'))
         /\ String.length (str_take 10000 html) = 10000%nat
         /\ String.prefix (str_take 10000 html) html = true).
Proof.
  split.
  - intros text Hdrv Hlong. repeat split.
    + intros v w' Hret.
      destruct (get_page_text_field h url w w' v (PStr text) Hret Hdrv)
        as [limited [[= <-] Hfield]].
      exact Hfield.
    + intros Hok. exact (get_page_text_returns h url w text Hok Hdrv).
    + apply (str_take_exact 5000 text Hlong).
    + apply (str_take_exact 5000 text Hlong).
  - intros html Hdrv Hlong. repeat split.
    + intros v w' Hret.
      destruct (get_page_html_field h url w w' v (PStr html) Hret Hdrv)
        as [limited [[= <-] Hfield]].
      exact Hfield.
    + intros Hok. exact (get_page_html_returns h url w html Hok Hdrv).
    + apply (str_take_exact 10000 html Hlong).
    + apply (str_take_exact 10000 html Hlong).
Qed.

Lemma sim_browser_never_raises (page_text page_html : string) :
  never_raises (Sim.browser_host page_text page_html).
Proof. intros earlier r. destruct r; eexists; reflexivity. Qed.

(** Both limits at work, on a page whose text has 5,001 characters and
    whose markup has 10,008. *)
Lemma content_is_truncated_example :
  let h := Sim.browser_host Sim.long_text Sim.long_html in
  (exists v w',
      get_page_text h "https://example.com" start = (inr v, w')
      /\ getitem v "text" = inr (PStr (str_take 5000 Sim.long_text))
      /\ String.length (str_take 5000 Sim.long_text) = 5000%nat)
  /\ (exists v w',
         get_page_html h "https://example.com" start = (inr v, w')
         /\ getitem v "html" = inr (PStr (str_take 10000 Sim.long_html))
         /\ String.length (str_take 10000 Sim.long_html) = 10000%nat).
Proof.
  cbv zeta. split.
  - destruct (proj1 (content_is_truncated
                       (Sim.browser_host Sim.long_text Sim.long_html)
                       "https://example.com" start) Sim.long_text)
      as [Hfield [Hret [Hlen _]]].
    + reflexivity.
    + apply Nat.ltb_lt. vm_compute. reflexivity.
    + destruct (Hret (sim_browser_never_raises _ _)) as [v [w' E]].
      exists v, w'. split; [exact E|]. split; [exact (Hfield v w' E) | exact Hlen].
  - destruct (proj2 (content_is_truncated
                       (Sim.browser_host Sim.long_text Sim.long_html)
                       "https://example.com" start) Sim.long_html)
      as [Hfield [Hret [Hlen _]]].
    + reflexivity.
    + apply Nat.ltb_lt. vm_compute. reflexivity.
    + destruct (Hret (sim_browser_never_raises _ _)) as [v [w' E]].
      exists v, w'. split; [exact E|]. split; [exact (Hfield v w' E) | exact Hlen].
Defined.

(** A page shorter than the limits comes back whole. *)
Example short_text_is_kept :
  fst (get_page_text (Sim.browser_host "Example Domain" "<html></html>")
         "https://example.com" start)
  = inr (PDict [("url", PStr "https://example.com");
                ("title", PStr "Example Domain");
                ("text", PStr "Example Domain");
                ("timestamp", PStr "2024-01-01T00:00:00")]).
Proof. reflexivity. Qed.

End BrowserOps.

(** ** The processes the cloud tool starts *)

Module AzureProcesses.
Import Py Azure Spec.

Lemma quiet_ret {A : Type} (a : A) : quiet (ret a).
Proof. intros w. reflexivity. Qed.

Lemma quiet_lift {A : Type} (r : result A) : quiet (lift r).
Proof. intros w. reflexivity. Qed.

Lemma quiet_print (line : string) : quiet (print line).
Proof. intros w. reflexivity. Qed.

Lemma quiet_bind {A B : Type} (c : M A) (k : A -> M B) :
  quiet c -> (forall a, quiet (k a)) -> quiet (bind c k).
Proof.
  intros Hc Hk w. specialize (Hc w). unfold bind.
  destruct (c w) as [[e|a] w1]; cbn in *; [exact Hc|].
  rewrite (Hk a w1). exact Hc.
Qed.

Lemma quiet_for_each (xs : list pyval) (body : pyval -> M unit) :
  (forall x, quiet (body x)) -> quiet (for_each xs body).
Proof.
  intros Hbody. induction xs as [|x xs IH]; cbn [for_each].
  - apply quiet_ret.
  - apply quiet_bind; [apply Hbody | intros _; exact IH].
Qed.

Ltac quiet_tac :=
  repeat first
    [ apply quiet_ret
    | apply quiet_lift
    | apply quiet_print
    | apply quiet_for_each; intros ?
    | apply quiet_bind; [|intros ?]
    | match goal with
      | |- quiet (if ?b then _ else _) => destruct b
      | |- quiet (match ?x with _ => _ end) => destruct x
      end ].

(** A handler that calls [az] once and then only prints starts exactly
    that one process, whether it returns or raises. *)
Lemma one_call (h : host) (args : list string) (pj : bool) {B : Type}
    (k : pyval -> M B) (w : world) :
  (forall v, quiet (k v)) ->
  spawned (snd (bind (run_az_command h args pj) k w))
  = app (spawned w) [az_call args pj].
Proof.
  intros Hk.
  destruct (AzureHandlers.run_az_command_eq h args pj w) as [v [Hv _]].
  unfold bind. rewrite Hv. rewrite (Hk v). reflexivity.
Qed.

Lemma get_storage_keys_spawns (h : host) (account group : string) (w : world) :
  spawned (snd (get_storage_keys h account group w))
  = app (spawned w)
        [az_call ["storage"; "account"; "keys"; "list";
                  "--account-name"; account; "--resource-group"; group] true].
Proof. unfold get_storage_keys. apply one_call. intros v. quiet_tac. Qed.

Lemma list_subscriptions_spawns (h : host) (w : world) :
  spawned (snd (list_subscriptions h w))
  = app (spawned w) [az_call ["account"; "list"] true].
Proof. unfold list_subscriptions. apply one_call. intros v. quiet_tac. Qed.

Lemma at_most_quiet (n : nat) {A : Type} (c : M A) : quiet c -> at_most n c.
Proof.
  intros Hc w. exists []. rewrite (Hc w), app_nil_r.
  repeat split. cbn. lia.
Qed.

Lemma at_most_call (n : nat) (h : host) (args : list string) (pj : bool) {B : Type}
    (k : pyval -> M B) :
  allowed (az_call args pj) = true ->
  (forall v, at_most n (k v)) ->
  at_most (S n) (bind (run_az_command h args pj) k).
Proof.
  intros Hallowed Hk w.
  destruct (AzureHandlers.run_az_command_eq h args pj w) as [v [Hv _]].
  unfold bind. rewrite Hv.
  destruct (Hk v {| printed := printed w;
                    spawned := app (spawned w) [az_call args pj] |})
    as [later [E [Hlen Hall]]].
  exists (az_call args pj :: later). rewrite E. cbn [spawned].
  rewrite <- app_assoc. repeat split.
  - cbn. lia.
  - cbn [forallb]. rewrite Hallowed, Hall. reflexivity.
Qed.

Lemma at_most_after {A B : Type} (n : nat) (c : M A) (k : A -> M B) :
  quiet c -> (forall a, at_most n (k a)) -> at_most n (bind c k).
Proof.
  intros Hc Hk w. specialize (Hc w). unfold bind.
  destruct (c w) as [[e|a] w1]; cbn in *.
  - exists []. rewrite Hc, app_nil_r. repeat split. cbn. lia.
  - destruct (Hk a w1) as [later [E [Hlen Hall]]].
    exists later. rewrite E, Hc. repeat split; assumption.
Qed.

Ltac at_most_tac h :=
  repeat first
    [ apply at_most_call; [reflexivity | intros ?]
    | apply at_most_after; [solve [quiet_tac] | intros ?]
    | match goal with
      | |- at_most _ (if ?b then _ else _) => destruct b
      end
    | solve [apply at_most_quiet; quiet_tac] ].

Lemma at_most_get_cognitive_keys (h : host) (name group : string) :
  at_most 1 (get_cognitive_keys h name group).
Proof. unfold get_cognitive_keys. at_most_tac h. Qed.

Lemma at_most_get_storage_keys (h : host) (name group : string) :
  at_most 1 (get_storage_keys h name group).
Proof. unfold get_storage_keys. at_most_tac h. Qed.

Lemma at_most_list_subscriptions (h : host) : at_most 1 (list_subscriptions h).
Proof. unfold list_subscriptions. at_most_tac h. Qed.

Lemma at_most_more (n m : nat) {A : Type} (c : M A) :
  (n <= m)%nat -> at_most n c -> at_most m c.
Proof.
  intros Hle Hc w. destruct (Hc w) as [later [E [Hlen Hall]]].
  exists later. repeat split; [exact E | lia | exact Hall].
Qed.

Lemma assoc_in {A : Type} (k : string) (kvs : list (string * A)) (v : A) :
  assoc k kvs = Some v -> In v (map snd kvs).
Proof.
  induction kvs as [|[k' v'] kvs IH]; cbn; [discriminate|].
  destruct (k' =? k); [intros [= <-]; now left | intros H; right; exact (IH H)].
Qed.

(** Every handler of the table starts at most two processes, all allowed. *)
Lemma at_most_handlers (h : host) (args : list string) (handler : M pyval) :
  In handler (map snd (commands h args)) -> at_most 2 handler.
Proof.
  intros Hin. cbn [commands map snd In] in Hin.
  repeat (destruct Hin as [<- | Hin]); [.. | contradiction].
  - unfold login. at_most_tac h.
  - apply (at_most_more 1); [lia|]. unfold get_account_info. at_most_tac h.
  - apply (at_most_more 1); [lia|]. apply at_most_list_subscriptions.
  - apply (at_most_more 1); [lia|]. unfold list_resource_groups. at_most_tac h.
  - apply (at_most_more 1); [lia|]. unfold list_resources.
    destruct args as [|a0 rest]; [|destruct (a0 =? "")]; at_most_tac h.
  - destruct args as [|a0 [|a1 [|a2 rest]]];
      try solve [unfold usage; apply at_most_quiet; quiet_tac].
    apply (at_most_more 1); [lia|]. unfold get_keys.
    destruct (assoc (lower a0) (type_map h)) as [func|] eqn:Hfunc;
      [|solve [apply at_most_quiet; quiet_tac]].
    apply assoc_in in Hfunc. cbn [type_map map snd In] in Hfunc.
    destruct Hfunc as [<- | [<- | [<- | []]]].
    + apply at_most_get_cognitive_keys.
    + apply at_most_get_cognitive_keys.
    + apply at_most_get_storage_keys.
  - destruct args as [|a0 rest];
      [solve [unfold usage; apply at_most_quiet; quiet_tac]|].
    apply (at_most_more 1); [lia|]. unfold create_resource_group. at_most_tac h.
  - destruct args as [|a0 [|a1 rest]];
      try solve [unfold usage; apply at_most_quiet; quiet_tac].
    unfold create_cognitive_service. at_most_tac h.
  - destruct args as [|a0 [|a1 rest]];
      try solve [unfold usage; apply at_most_quiet; quiet_tac].
    unfold create_storage_account. at_most_tac h.
  - destruct args as [|a0 [|a1 rest]];
      try solve [unfold usage; apply at_most_quiet; quiet_tac].
    unfold create_openai_service, create_cognitive_service. at_most_tac h.
  - destruct args as [|a0 [|a1 rest]];
      try solve [unfold usage; apply at_most_quiet; quiet_tac].
    apply (at_most_more 1); [lia|]. unfold list_openai_deployments. at_most_tac h.
Qed.

(** X1. Whatever the command line and whatever [az] answers, one run of the
    cloud tool starts at most two processes; each is [az] with a timeout of
    120 seconds and one of the eleven subcommands of [az_subcommands].  In
    particular the command line never reaches [az account set], never
    creates a deployment, and never deletes anything. *)
Theorem main_starts_only_listed_az (h : host) (sys_argv : list string) (w : world) :
  exists later,
    spawned (snd (main h sys_argv w)) = app (spawned w) later
    /\ (length later <= 2)%nat
    /\ forallb allowed later = true
    /\ allowed (az_call ["account"; "set"; "--subscription"; "id"] true) = false
    /\ allowed (az_call ["cognitiveservices"; "account"; "deployment"; "create"] true) = false
    /\ allowed (az_call ["group"; "delete"; "--name"; "g"] true) = false.
Proof.
  assert (Hmain : at_most 2 (main h sys_argv)).
  { unfold main. destruct sys_argv as [|prog [|first args]];
      try solve [apply at_most_quiet; quiet_tac].
    destruct (assoc (lower first) (commands h args)) as [handler|] eqn:Hlookup.
    - apply assoc_in in Hlookup.
      pose proof (at_most_handlers h args handler Hlookup) as Hh.
      intros w0. destruct (Hh w0) as [later [E [Hlen Hall]]].
      exists later. repeat split; try assumption.
      unfold bind. destruct (handler w0) as [[e|v] w1]; exact E.
    - solve [apply at_most_quiet; quiet_tac]. }
  destruct (Hmain w) as [later [E [Hlen Hall]]].
  exists later. repeat split; try assumption; reflexivity.
Qed.

End AzureProcesses.

(** ** How the handlers of the cloud tool compose *)

Module AzureComposition.
Import Py Azure Spec.

(** [run_az_command], as one equation. *)
Lemma run_az_command_is (h : host) (args : list string) (pj : bool) (w : world) :
  run_az_command h args pj w = (inr (result_of h args pj w), after_call args pj w).
Proof.
  destruct (AzureHandlers.run_az_command_eq h args pj w) as [v [Hv _]].
  unfold result_of. rewrite Hv. reflexivity.
Qed.

Lemma result_shape (h : host) (args : list string) (pj : bool) (w : world) :
  (exists data, result_of h args pj w = success_of data)
  \/ (exists message, result_of h args pj w = failure_of message).
Proof.
  destruct (AzureHandlers.run_az_command_eq h args pj w) as [v [Hv Hshape]].
  unfold result_of. rewrite Hv. exact Hshape.
Qed.

Lemma bind_call (h : host) (args : list string) (pj : bool) {B : Type}
    (k : pyval -> M B) (w : world) :
  bind (run_az_command h args pj) k w
  = k (result_of h args pj w) (after_call args pj w).
Proof. unfold bind. rewrite run_az_command_is. reflexivity. Qed.

Lemma bind_print (line : string) {B : Type} (c : M B) (w : world) :
  bind (print line) (fun _ => c) w = c (after_print line w).
Proof. reflexivity. Qed.

Ltac by_outcome h args pj w :=
  let d := fresh "data" in
  let m := fresh "message" in
  let E := fresh "Hresult" in
  destruct (result_shape h args pj w) as [[d E] | [m E]]; rewrite ?E in *.

(** X8. [create_resource_group], [set_subscription] and
    [create_openai_deployment] never raise, whatever [az] answers: each
    starts its one process, prints its confirmation exactly when the call
    succeeded, and returns the Invocation Result unchanged. *)
Theorem confirmations_follow_success (h : host) (w : world) :
  (forall name location,
      let args := ["group"; "create"; "--name"; name; "--location"; location] in
      let r := result_of h args true w in
      create_resource_group h name location w
      = (inr r,
         if succeeded r
         then after_print ("✅ Resource group '" ++ name ++ "' created in " ++ location)
                (after_call args true w)
         else after_call args true w))
  /\ (forall subscription_id,
         let args := ["account"; "set"; "--subscription"; subscription_id] in
         let r := result_of h args true w in
         set_subscription h subscription_id w
         = (inr r,
            if succeeded r
            then after_print ("✅ Active subscription set to: " ++ subscription_id)
                   (after_call args true w)
            else after_call args true w))
  /\ (forall name group deployment model version,
         let args := ["cognitiveservices"; "account"; "deployment"; "create";
                      "--name"; name; "--resource-group"; group;
                      "--deployment-name"; deployment; "--model-name"; model;
                      "--model-version"; version; "--model-format"; "OpenAI"] in
         let r := result_of h args true w in
         create_openai_deployment h name group deployment model version w
         = (inr r,
            if succeeded r
            then after_print ("✅ Deployment '" ++ deployment ++ "' (" ++ model
                              ++ ") created")
                   (after_call args true w)
            else after_call args true w)).
Proof.
  cbv zeta. repeat split; intros.
  - unfold create_resource_group. rewrite bind_call.
    by_outcome h ["group"; "create"; "--name"; name; "--location"; location] true w;
      reflexivity.
  - unfold set_subscription. rewrite bind_call.
    by_outcome h ["account"; "set"; "--subscription"; subscription_id] true w;
      reflexivity.
  - unfold create_openai_deployment. rewrite bind_call.
    by_outcome h ["cognitiveservices"; "account"; "deployment"; "create";
                  "--name"; name; "--resource-group"; group;
                  "--deployment-name"; deployment; "--model-name"; model;
                  "--model-version"; version; "--model-format"; "OpenAI"] true w;
      reflexivity.
Qed.

(** X6. [login] runs [az login] without [-o json], so its output is never
    decoded.  When the call fails it prints the failure and returns it,
    having started that one process; when it succeeds it prints the
    confirmation and goes on as [list_subscriptions] does, whose value it
    returns. *)
Theorem login_then_subscriptions (h : host) (w : world) :
  let opened := after_call ["login"] false (after_print "Opening browser for Azure login..." w) in
  let r := result_of h ["login"] false (after_print "Opening browser for Azure login..." w) in
  argv (az_call ["login"] false) = ["az"; "login"]
  /\ (succeeded r = true ->
      login h w = list_subscriptions h (after_print "✅ Login successful!" opened))
  /\ (forall message, r = failure_of message ->
      login h w = (inr r, after_print ("❌ Login failed: " ++ message) opened))
  /\ (succeeded r = true \/ exists message, r = failure_of message).
Proof.
  cbv zeta. split; [reflexivity|].
  unfold login. rewrite bind_print, bind_call.
  by_outcome h ["login"] false (after_print "Opening browser for Azure login..." w).
  - split; [intros _; reflexivity|].
    split; [intros message0 H; discriminate H | now left].
  - split; [intros H; discriminate H|].
    split; [intros message0 [= <-]; reflexivity | right; now exists message].
Qed.

(** X7. [create_cognitive_service] and [create_storage_account] start the
    creation and, only when it succeeded, the key listing of the new
    resource, whose outcome they return.  So a run starts exactly one
    process when the creation fails and exactly two when it succeeds, and
    after a successful creation a failed key listing is what the caller
    gets back. *)
Theorem create_then_list_keys (h : host) (w : world) :
  (forall name group kind sku location,
      let args := ["cognitiveservices"; "account"; "create"; "--name"; name;
                   "--resource-group"; group; "--kind"; kind; "--sku"; sku;
                   "--location"; location; "--yes"] in
      let r := result_of h args true w in
      let created := after_print ("✅ Cognitive Service '" ++ name ++ "' (" ++ kind
                                  ++ ") created") (after_call args true w) in
      (succeeded r = false ->
       create_cognitive_service h name group kind sku location w
       = (inr r, after_call args true w))
      /\ (succeeded r = true ->
          create_cognitive_service h name group kind sku location w
          = get_cognitive_keys h name group created
          /\ spawned (snd (create_cognitive_service h name group kind sku location w))
             = app (spawned w)
                   [az_call args true;
                    az_call ["cognitiveservices"; "account"; "keys"; "list";
                             "--name"; name; "--resource-group"; group] true]))
  /\ (forall name group sku location,
         let args := ["storage"; "account"; "create"; "--name"; name;
                      "--resource-group"; group; "--sku"; sku;
                      "--location"; location] in
         let r := result_of h args true w in
         let created := after_print ("✅ Storage account '" ++ name ++ "' created")
                          (after_call args true w) in
         (succeeded r = false ->
          create_storage_account h name group sku location w
          = (inr r, after_call args true w))
         /\ (succeeded r = true ->
             create_storage_account h name group sku location w
             = get_storage_keys h name group created
             /\ spawned (snd (create_storage_account h name group sku location w))
                = app (spawned w)
                      [az_call args true;
                       az_call ["storage"; "account"; "keys"; "list";
                                "--account-name"; name; "--resource-group"; group] true])).
Proof.
  cbv zeta. split; intros.
  - unfold create_cognitive_service. rewrite bind_call.
    by_outcome h ["cognitiveservices"; "account"; "create"; "--name"; name;
                  "--resource-group"; group; "--kind"; kind; "--sku"; sku;
                  "--location"; location; "--yes"] true w.
    + split; [intros H; discriminate H | intros _].
      change (bind (lift (getitem (success_of data) "success")) ?k)
        with (fun w0 : world => k (PBool true) w0).
      cbn beta iota. cbn [truthy]. rewrite bind_print.
      split; [reflexivity|].
      rewrite AzureHandlers.get_cognitive_keys_spawns. cbn [spawned after_print after_call].
      rewrite <- app_assoc. reflexivity.
    + split; [intros _; reflexivity | intros H; discriminate H].
  - unfold create_storage_account. rewrite bind_call.
    by_outcome h ["storage"; "account"; "create"; "--name"; name;
                  "--resource-group"; group; "--sku"; sku;
                  "--location"; location] true w.
    + split; [intros H; discriminate H | intros _].
      change (bind (lift (getitem (success_of data) "success")) ?k)
        with (fun w0 : world => k (PBool true) w0).
      cbn beta iota. cbn [truthy]. rewrite bind_print.
      split; [reflexivity|].
      rewrite AzureProcesses.get_storage_keys_spawns. cbn [spawned after_print after_call].
      rewrite <- app_assoc. reflexivity.
    + split; [intros _; reflexivity | intros H; discriminate H].
Qed.

End AzureComposition.

(** ** More on the command line of the cloud tool *)

Module AzureCommandLine.
Import Py Azure Spec.

Lemma lower_char_idempotent (c : ascii) : lower_char (lower_char c) = lower_char c.
Proof. destruct c as [[] [] [] [] [] [] [] []]; reflexivity. Qed.

Lemma lower_idempotent (s : string) : lower (lower s) = lower s.
Proof.
  induction s as [|c s IH]; cbn; [reflexivity|].
  now rewrite lower_char_idempotent, IH.
Qed.

(** X11. The cloud tool reads its command without regard to case: a command
    line behaves exactly as the one whose command is written in lower
    case. *)
Theorem command_case_is_ignored (h : host) (prog first : string) (args : list string)
    (w : world) :
  main h (prog :: first :: args) w = main h (prog :: lower first :: args) w.
Proof. unfold main. rewrite lower_idempotent. reflexivity. Qed.

(** X12. Positional arguments beyond those a command reads are ignored: with
    at least [max_args] arguments given, any further ones change
    nothing. *)
Theorem surplus_arguments_are_ignored (h : host) (prog first : string)
    (args surplus : list string) (w : world) :
  In (lower first) command_names ->
  (max_args (lower first) <= length args)%nat ->
  main h (prog :: first :: (args ++ surplus)%list) w = main h (prog :: first :: args) w.
Proof.
  intros Hin Hlen. unfold main.
  remember (lower first) as command eqn:Hc. clear Hc.
  Dispatch.split_in Hin; subst command; cbn in Hlen;
    destruct args as [|a0 [|a1 [|a2 rest]]]; cbn in Hlen; try lia; reflexivity.
Qed.

Lemma surplus_arguments_are_ignored_example :
  main (Sim.azure_host Sim.not_logged_in [])
    ["azure_automation.py"; "create_storage"; "mystore"; "my-group"; "Premium_LRS"; "westus"]
    start
  = main (Sim.azure_host Sim.not_logged_in [])
      ["azure_automation.py"; "create_storage"; "mystore"; "my-group"] start.
Proof.
  apply (surplus_arguments_are_ignored (Sim.azure_host Sim.not_logged_in [])
           "azure_automation.py" "create_storage" ["mystore"; "my-group"]
           ["Premium_LRS"; "westus"] start).
  - vm_compute. tauto.
  - vm_compute. lia.
Defined.

(** X9. [get_keys] chooses by the resource type, read without regard to case:
    [cognitive] and [openai] list the keys of a Cognitive Services
    account, [storage] those of a storage account.  Any other type starts
    no process, prints the type as it was given and the three supported
    ones, and returns a dictionary that has an [error] entry but no
    [success] entry. *)
Theorem get_keys_by_type (h : host) (resource_type name group : string) (w : world) :
  (lower resource_type = "cognitive" \/ lower resource_type = "openai" ->
   get_keys h resource_type name group w = get_cognitive_keys h name group w)
  /\ (lower resource_type = "storage" ->
      get_keys h resource_type name group w = get_storage_keys h name group w)
  /\ (~ In (lower resource_type) ["cognitive"; "openai"; "storage"] ->
      get_keys h resource_type name group w
      = (inr (PDict [("error", PStr "Unknown resource type")]),
         {| printed := app (printed w)
                         ["❌ Unknown resource type: " ++ resource_type;
                          "   Supported types: cognitive, openai, storage"];
            spawned := spawned w |})
      /\ getitem (PDict [("error", PStr "Unknown resource type")]) "success"
         = inl (KeyError "success")).
Proof.
  unfold get_keys. split; [|split].
  - intros [-> | ->]; reflexivity.
  - intros ->. reflexivity.
  - intros Hnot.
    rewrite (Dispatch.assoc_not_in (lower resource_type) (type_map h)) by exact Hnot.
    split; [|reflexivity].
    unfold bind, print, ret. cbn. rewrite <- app_assoc. reflexivity.
Qed.

Lemma get_keys_by_type_example :
  get_keys (Sim.azure_host Sim.not_logged_in []) "KeyVault" "my-vault" "my-group" start
  = (inr (PDict [("error", PStr "Unknown resource type")]),
     {| printed := ["❌ Unknown resource type: KeyVault";
                    "   Supported types: cognitive, openai, storage"];
        spawned := [] |}).
Proof.
  apply (proj2 (proj2 (get_keys_by_type (Sim.azure_host Sim.not_logged_in [])
                         "KeyVault" "my-vault" "my-group" start))).
  vm_compute. intuition discriminate.
Defined.

(** X10. [list_resources] treats an empty group name as no group: it then
    lists every resource, as it does without an argument; a group that is
    not empty is passed on as [--resource-group]. *)
Theorem empty_group_lists_everything (h : host) (w : world) :
  list_resources h (Some "") w = list_resources h None w
  /\ (forall prog, main h [prog; "list_resources"; ""] w = main h [prog; "list_resources"] w)
  /\ spawned (snd (list_resources h None w))
     = app (spawned w) [az_call ["resource"; "list"] true]
  /\ (forall group, group <> "" ->
        spawned (snd (list_resources h (Some group) w))
        = app (spawned w) [az_call ["resource"; "list"; "--resource-group"; group] true]).
Proof.
  split; [reflexivity|]. split; [reflexivity|]. split.
  - unfold list_resources. cbn [app]. apply AzureProcesses.one_call.
    intros v. AzureProcesses.quiet_tac.
  - intros group Hgroup. unfold list_resources.
    destruct (String.eqb_spec group "") as [E|_]; [contradiction|].
    cbn [app]. apply AzureProcesses.one_call. intros v. AzureProcesses.quiet_tac.
Qed.

(** *** Failures, on every host *)

Lemma failed_result (h : host) (args : list string) (pj : bool) (w : world) :
  always_fails h ->
  result_of h args pj w
  = failure_of (failure_message (subprocess_run h (spawned w) (az_call args pj))).
Proof.
  intros Hfails. specialize (Hfails (spawned w) (az_call args pj)).
  unfold result_of. AzureInvoker.run_cases h w args pj.
  - destruct (rc0 =? 0)%Z eqn:E; [apply Z.eqb_eq in E; contradiction | reflexivity].
  - reflexivity.
  - reflexivity.
Qed.

Lemma snd_then_ret {A : Type} (c : M A) (w : world) :
  snd (bind c (fun _ => ret tt) w) = snd (c w).
Proof. unfold bind. destruct (c w) as [[e|a] w1]; reflexivity. Qed.

(** X5. When no [az] process succeeds, which commands say so: [login],
    [list_subscriptions] and the key listing of a Cognitive Services or
    OpenAI account print one line with the error text; every other
    command prints nothing at all.  Each starts its one process. *)
Theorem failure_is_reported_by_three_commands (h : host) (prog : string) (w : world) :
  always_fails h ->
  let said args pj := failure_message (subprocess_run h (spawned w) (az_call args pj)) in
  let lines sys_argv := printed (snd (main h (prog :: sys_argv) w)) in
  lines ["list_subscriptions"] = app (printed w) ["❌ Error: " ++ said ["account"; "list"] true]
  /\ lines ["login"]
     = app (printed w) ["Opening browser for Azure login...";
                        "❌ Login failed: " ++ said ["login"] false]
  /\ (forall name group,
         lines ["get_keys"; "cognitive"; name; group]
         = app (printed w)
               ["❌ Error: " ++ said ["cognitiveservices"; "account"; "keys"; "list";
                                     "--name"; name; "--resource-group"; group] true]
         /\ lines ["get_keys"; "openai"; name; group]
            = lines ["get_keys"; "cognitive"; name; group]
         /\ lines ["get_keys"; "storage"; name; group] = printed w
         /\ lines ["create_cognitive"; name; group] = printed w
         /\ lines ["create_storage"; name; group] = printed w
         /\ lines ["create_openai"; name; group] = printed w
         /\ lines ["list_deployments"; name; group] = printed w
         /\ lines ["create_resource_group"; name; group] = printed w
         /\ lines ["create_resource_group"; name] = printed w
         /\ lines ["list_resources"; group] = printed w)
  /\ lines ["account"] = printed w
  /\ lines ["list_groups"] = printed w
  /\ lines ["list_resources"] = printed w.
Proof.
  intros Hfails. cbv zeta.
  assert (Hcall : forall B args pj (k : pyval -> M B) w0,
             bind (run_az_command h args pj) k w0
             = k (failure_of (failure_message
                                (subprocess_run h (spawned w0) (az_call args pj))))
                 (after_call args pj w0)).
  { intros. rewrite AzureComposition.bind_call, (failed_result h args pj w0 Hfails).
    reflexivity. }
  unfold main.
  repeat match goal with
         | |- context [lower ?c] =>
             let c' := eval vm_compute in (lower c) in change (lower c) with c'
         end.
  cbn [assoc commands String.eqb Ascii.eqb Bool.eqb].
  rewrite !snd_then_ret.
  split; [unfold list_subscriptions; rewrite Hcall; cbn;
          rewrite <- ?app_assoc; reflexivity|].
  split; [unfold login; rewrite AzureComposition.bind_print,
                          Hcall; cbn; rewrite <- ?app_assoc; reflexivity|].
  split.
  - intros name group. rewrite !snd_then_ret.
    unfold get_keys.
    repeat match goal with
           | |- context [lower ?c] =>
               let c' := eval vm_compute in (lower c) in change (lower c) with c'
           end.
    cbn [assoc type_map String.eqb Ascii.eqb Bool.eqb].
    unfold get_openai_keys, get_cognitive_keys, get_storage_keys,
      create_cognitive_service, create_storage_account, create_openai_service,
      create_cognitive_service, list_openai_deployments, create_resource_group,
      list_resources.
    repeat split; try (rewrite ?Hcall; cbn; rewrite <- ?app_assoc; reflexivity).
  - unfold get_account_info, list_resource_groups, list_resources.
    repeat split; rewrite Hcall; reflexivity.
Qed.

Lemma sim_always_fails : always_fails (Sim.azure_host Sim.not_logged_in []).
Proof. intros earlier call. cbn. discriminate. Qed.

Lemma failure_is_reported_by_three_commands_example :
  printed (snd (main (Sim.azure_host Sim.not_logged_in [])
                  ["azure_automation.py"; "list_subscriptions"] start))
  = ["❌ Error: ERROR: Please run 'az login' to setup account."]
  /\ printed (snd (main (Sim.azure_host Sim.not_logged_in [])
                     ["azure_automation.py"; "account"] start))
     = [].
Proof.
  pose proof (failure_is_reported_by_three_commands
                (Sim.azure_host Sim.not_logged_in []) "azure_automation.py" start
                sim_always_fails) as H.
  cbv zeta in H. split; [exact (proj1 H) | exact (proj1 (proj2 (proj2 (proj2 H))))].
Defined.

(** The two lemmas of [Dispatch] on failing hosts and on enough
    arguments, each run once. *)
Lemma failing_az_never_crashes_example :
  (exists w', main (Sim.azure_host Sim.not_installed [])
                ["azure_automation.py"; "create_openai"; "my-ai"; "my-group"] start
              = (inr tt, w'))
  /\ exit_status (main (Sim.azure_host Sim.not_installed [])
                    ["azure_automation.py"; "create_openai"; "my-ai"; "my-group"] start)
     = 0%Z.
Proof.
  apply (Dispatch.failing_az_never_crashes (Sim.azure_host Sim.not_installed [])
           ["azure_automation.py"; "create_openai"; "my-ai"; "my-group"] start).
  intros earlier call. exact I.
Defined.

Lemma azure_enough_arguments_example :
  exists call later,
    spawned (snd (main (Sim.azure_host Sim.not_logged_in [])
                    ["azure_automation.py"; "GET_KEYS"; "Storage"; "mystore"; "my-group"]
                    start))
    = app (spawned start) (call :: later).
Proof.
  apply (Dispatch.azure_enough_arguments (Sim.azure_host Sim.not_logged_in [])
           "azure_automation.py" "GET_KEYS" ["Storage"; "mystore"; "my-group"] start).
  - vm_compute. tauto.
  - vm_compute. lia.
  - intros _. vm_compute. tauto.
Defined.

End AzureCommandLine.

(** ** Output of [az] that is not JSON *)

Module AzureRawOutput.
Import Py Azure Spec.

Lemma fst_then_ret {A : Type} (c : M A) (w : world) :
  fst (bind c (fun _ => ret tt) w)
  = match fst (c w) with inl e => inl e | inr _ => inr tt end.
Proof. unfold bind. destruct (c w) as [[e|a] w1]; reflexivity. Qed.

(** The result of a call whose output reaches the handler undecoded. *)
Lemma raw_result (h : host) (args : list string) (w : world) (out err : string) :
  subprocess_run h (spawned w) (az_call args true) = Completed 0 out err ->
  strip_nonempty out = false \/ json_loads h out = JSONDecodeError ->
  result_of h args true w = success_of (PStr out).
Proof.
  intros Hrun Hraw.
  pose proof (AzureInvoker.run_az_command_exit_zero h args true w out err Hrun) as H.
  unfold result_of. cbn [andb] in H.
  destruct Hraw as [Hblank | Hloads].
  - rewrite Hblank in H. now rewrite H.
  - destruct (strip_nonempty out); [rewrite Hloads in H|]; now rewrite H.
Qed.

Ltac pick_command :=
  unfold main;
  repeat match goal with
         | |- context [lower ?c] =>
             let c' := eval vm_compute in (lower c) in change (lower c) with c'
         end;
  cbn [assoc commands type_map String.eqb Ascii.eqb Bool.eqb].

(** X2. The masking of a decode failure has a price.  When [az] exits with
    code zero and prints something that is not empty and that is not
    decoded (it is blank, or [json.loads] rejects it), the handlers that
    read the data receive a string where they expect a list or a
    dictionary, and an uncaught [AttributeError] or [TypeError] ends the
    run with status 1: every listing, the account display, both key
    listings, and the two creations that list keys afterwards.  Only
    [create_resource_group], which does not read the data, returns. *)
Theorem undecoded_output_ends_in_an_exception (h : host) (prog : string) (w : world)
    (out err : string) :
  (forall earlier call, subprocess_run h earlier call = Completed 0 out err) ->
  strip_nonempty out = false \/ json_loads h out = JSONDecodeError ->
  out <> "" ->
  let ends sys_argv := fst (main h (prog :: sys_argv) w) in
  ends ["list_subscriptions"] = inl AttributeError
  /\ ends ["list_groups"] = inl TypeError
  /\ ends ["list_resources"] = inl TypeError
  /\ ends ["account"] = inl TypeError
  /\ exit_status (main h [prog; "account"] w) = 1%Z
  /\ (forall name group,
         ends ["get_keys"; "cognitive"; name; group] = inl AttributeError
         /\ ends ["get_keys"; "storage"; name; group] = inl TypeError
         /\ ends ["list_deployments"; name; group] = inl TypeError
         /\ ends ["create_cognitive"; name; group] = inl AttributeError
         /\ ends ["create_openai"; name; group] = inl AttributeError
         /\ ends ["create_storage"; name; group] = inl TypeError
         /\ ends ["create_resource_group"; name; group] = inr tt).
Proof.
  intros Hrun Hraw Hout. cbv zeta.
  assert (Hcall : forall B args (k : pyval -> M B) w0,
             bind (run_az_command h args true) k w0
             = k (success_of (PStr out)) (after_call args true w0)).
  { intros. rewrite AzureComposition.bind_call.
    rewrite (raw_result h args w0 out err (Hrun _ _) Hraw). reflexivity. }
  destruct out as [|c rest]; [contradiction|]. clear Hout Hraw Hrun.
  unfold exit_status.
  repeat split; intros; pick_command; rewrite fst_then_ret;
    unfold list_subscriptions, list_resource_groups, list_resources, get_account_info,
      get_keys, get_cognitive_keys, get_storage_keys, list_openai_deployments,
      create_cognitive_service, create_openai_service, create_cognitive_service,
      create_storage_account, create_resource_group;
    repeat match goal with
           | |- context [lower ?c] =>
               let c' := eval vm_compute in (lower c) in change (lower c) with c'
           end;
    cbn [assoc type_map String.eqb Ascii.eqb Bool.eqb];
    unfold get_cognitive_keys, get_storage_keys;
    rewrite ?Hcall; cbn; rewrite ?Hcall; reflexivity.
Qed.

Lemma sim_not_json_always (earlier : list spawn) (call : spawn) :
  subprocess_run (Sim.azure_host Sim.not_json []) earlier call = Completed 0 "not json" "".
Proof. reflexivity. Qed.

Lemma undecoded_output_ends_in_an_exception_example :
  fst (main (Sim.azure_host Sim.not_json []) ["azure_automation.py"; "list_subscriptions"]
         start)
  = inl AttributeError
  /\ fst (main (Sim.azure_host Sim.not_json [])
            ["azure_automation.py"; "get_keys"; "storage"; "mystore"; "my-group"] start)
     = inl TypeError.
Proof.
  pose proof (undecoded_output_ends_in_an_exception
                (Sim.azure_host Sim.not_json []) "azure_automation.py" start
                "not json" "" sim_not_json_always) as H.
  cbv zeta in H.
  destruct H as [Hsubs [_ [_ [_ [_ Hkeys]]]]].
  - right. reflexivity.
  - discriminate.
  - split; [exact Hsubs | exact (proj1 (proj2 (Hkeys "mystore" "my-group")))].
Defined.

(** X3. When [az] exits with code zero and prints nothing at all, the data is
    the empty string.  The four listings and the storage key listing loop
    over it zero times: they print their heading and return.  The account
    display and the Cognitive Services key listing still raise. *)
Theorem empty_output_is_an_empty_listing (h : host) (prog : string) (w : world)
    (err : string) :
  (forall earlier call, subprocess_run h earlier call = Completed 0 "" err) ->
  let run sys_argv := main h (prog :: sys_argv) w in
  let dashes := str_mul "-" 60 in
  run ["list_subscriptions"]
  = (inr tt, after_print dashes (after_print (nl ++ "📋 Azure Subscriptions:")
               (after_call ["account"; "list"] true w)))
  /\ run ["list_groups"]
     = (inr tt, after_print dashes (after_print (nl ++ "📁 Resource Groups:")
                  (after_call ["group"; "list"] true w)))
  /\ run ["list_resources"]
     = (inr tt, after_print dashes (after_print (nl ++ "🔧 Resources:")
                  (after_call ["resource"; "list"] true w)))
  /\ fst (run ["account"]) = inl TypeError
  /\ (forall name group,
         run ["list_deployments"; name; group]
         = (inr tt, after_print dashes
                      (after_print (nl ++ "🤖 Deployments for " ++ name ++ ":")
                         (after_call ["cognitiveservices"; "account"; "deployment"; "list";
                                      "--name"; name; "--resource-group"; group] true w)))
         /\ run ["get_keys"; "storage"; name; group]
            = (inr tt, after_print dashes
                         (after_print (nl ++ "🔑 Storage Keys for " ++ name ++ ":")
                            (after_call ["storage"; "account"; "keys"; "list";
                                         "--account-name"; name;
                                         "--resource-group"; group] true w)))
         /\ fst (run ["get_keys"; "cognitive"; name; group]) = inl AttributeError).
Proof.
  intros Hrun. cbv zeta.
  assert (Hcall : forall B args (k : pyval -> M B) w0,
             bind (run_az_command h args true) k w0
             = k (success_of (PStr "")) (after_call args true w0)).
  { intros. rewrite AzureComposition.bind_call.
    rewrite (raw_result h args w0 "" err (Hrun _ _) (or_introl eq_refl)). reflexivity. }
  clear Hrun.
  repeat split; intros; pick_command;
    unfold list_subscriptions, list_resource_groups, list_resources, get_account_info,
      get_keys, list_openai_deployments;
    repeat match goal with
           | |- context [lower ?c] =>
               let c' := eval vm_compute in (lower c) in change (lower c) with c'
           end;
    cbn [assoc type_map String.eqb Ascii.eqb Bool.eqb];
    unfold get_cognitive_keys, get_storage_keys;
    unfold bind at 1; rewrite ?Hcall; reflexivity.
Qed.

Lemma empty_output_is_an_empty_listing_example :
  main (Sim.azure_host (Completed 0 "" "") []) ["azure_automation.py"; "list_groups"] start
  = (inr tt,
     {| printed := [nl ++ "📁 Resource Groups:";
                    "------------------------------------------------------------"];
        spawned := [az_call ["group"; "list"] true] |}).
Proof.
  pose proof (empty_output_is_an_empty_listing
                (Sim.azure_host (Completed 0 "" "") []) "azure_automation.py" start ""
                (fun _ _ => eq_refl)) as H.
  cbv zeta in H. exact (proj1 (proj2 H)).
Defined.

End AzureRawOutput.

(** ** What the reports of the cloud tool show *)

Module AzureReports.
Import Py Azure Spec.

(** The loop of [list_subscriptions] prints two lines per subscription. *)
Lemma subscriptions_loop_prints (h : host) (entries : list pyval)
    (subs : list subscription) :
  Forall2 shows_subscription entries subs ->
  forall w,
    for_each entries (fun sub =>
      state <- lift (get sub "state" PNone) ;;
      let status := if eq_str state "Enabled" then "✓" else "✗" in
      is_default <- lift (get sub "isDefault" PNone) ;;
      let default := if truthy is_default then " (DEFAULT)" else "" in
      name <- lift (getitem sub "name") ;;
      print ("  " ++ status ++ " " ++ fmt h name ++ default) ;;
      id <- lift (getitem sub "id") ;;
      print ("    ID: " ++ fmt h id)) w
    = (inr tt, {| printed := app (printed w) (flat_map subscription_lines subs);
                  spawned := spawned w |}).
Proof.
  induction 1 as [|entry s entries subs
                    [Hname [Hid [[state [Hstate Henabled]] [flag [Hflag Hdefault]]]]] _ IH];
    intros w.
  - cbn. rewrite app_nil_r. destruct w; reflexivity.
  - cbn [for_each flat_map]. unfold bind at 1. unfold bind at 1, lift at 1.
    rewrite Hstate. unfold bind at 1, lift at 1. rewrite Hflag.
    unfold bind at 1, lift at 1. rewrite Hname.
    unfold bind at 1, print at 1. unfold bind at 1, lift at 1. rewrite Hid.
    unfold print at 1. rewrite IH. rewrite Henabled, Hdefault.
    cbn [fmt printed spawned subscription_lines app].
    rewrite <- !app_assoc. reflexivity.
Qed.

(** X14. For a listing that was decoded, [list_subscriptions] prints a heading
    and two lines per subscription, and returns the list.  A subscription
    is ticked only when its state is exactly [Enabled] (crossed when the
    state is anything else or absent) and marked [(DEFAULT)] when its
    [isDefault] is true. *)
Theorem subscriptions_report (h : host) (w : world) (entries : list pyval)
    (subs : list subscription) :
  result_of h ["account"; "list"] true w = success_of (PList entries) ->
  Forall2 shows_subscription entries subs ->
  list_subscriptions h w
  = (inr (PList entries),
     {| printed := app (printed w)
                     ((nl ++ "📋 Azure Subscriptions:")
                      :: str_mul "-" 60
                      :: flat_map subscription_lines subs);
        spawned := app (spawned w) [az_call ["account"; "list"] true] |}).
Proof.
  intros Hresult Hsubs. unfold list_subscriptions.
  rewrite AzureComposition.bind_call, Hresult.
  unfold bind at 1, lift at 1.
  cbn [getitem assoc success_of String.eqb Ascii.eqb Bool.eqb truthy].
  rewrite !AzureComposition.bind_print.
  unfold bind at 1, lift at 1. cbn [getitem assoc String.eqb Ascii.eqb Bool.eqb].
  unfold bind at 1, lift at 1. cbn [iterate].
  unfold bind at 1. rewrite (subscriptions_loop_prints h entries subs Hsubs).
  cbn. rewrite <- !app_assoc. reflexivity.
Qed.

Lemma subscriptions_report_example :
  list_subscriptions
    (Sim.azure_host (Completed 0 Sim.subscriptions_text "")
       [(Sim.subscriptions_text, PList Sim.subscriptions_value)]) start
  = (inr (PList Sim.subscriptions_value),
     {| printed := [nl ++ "📋 Azure Subscriptions:";
                    "------------------------------------------------------------";
                    "  ✓ Production (DEFAULT)";
                    "    ID: 1111";
                    "  ✗ Sandbox";
                    "    ID: 2222";
                    "  ✗ Legacy";
                    "    ID: 3333"];
        spawned := [az_call ["account"; "list"] true] |}).
Proof.
  apply (subscriptions_report
           (Sim.azure_host (Completed 0 Sim.subscriptions_text "")
              [(Sim.subscriptions_text, PList Sim.subscriptions_value)])
           start Sim.subscriptions_value
           [{| sub_name := "Production"; sub_id := "1111";
               sub_enabled := true; sub_default := true |};
            {| sub_name := "Sandbox"; sub_id := "2222";
               sub_enabled := false; sub_default := false |};
            {| sub_name := "Legacy"; sub_id := "3333";
               sub_enabled := false; sub_default := false |}]).
  - reflexivity.
  - repeat constructor; eexists; split; reflexivity.
Defined.

(** X15. A key that the listing of a Cognitive Services account does not have
    is shown as [N/A...], and a listing without either key still returns.
    A key whose value is neither a string nor a list (a number, [null], a
    boolean, an object) cannot be sliced: [TypeError] is raised after the
    heading, before anything of the keys is printed. *)
Theorem absent_key_shows_as_na (h : host) (name group : string) (w : world)
    (keys : list (string * pyval)) :
  let args := ["cognitiveservices"; "account"; "keys"; "list";
               "--name"; name; "--resource-group"; group] in
  let heading := after_print (str_mul "-" 60)
                   (after_print (nl ++ "🔑 API Keys for " ++ name ++ ":")
                      (after_call args true w)) in
  result_of h args true w = success_of (PDict keys) ->
  (assoc "key1" keys = None -> assoc "key2" keys = None ->
   get_cognitive_keys h name group w
   = (inr (PDict keys), after_print "  Key2: N/A..." (after_print "  Key1: N/A..." heading)))
  /\ (forall value,
         assoc "key1" keys = Some value ->
         slice_to 20 value = inl TypeError ->
         get_cognitive_keys h name group w = (inl TypeError, heading)).
Proof.
  cbv zeta. intros Hresult. unfold get_cognitive_keys.
  rewrite !AzureComposition.bind_call, Hresult.
  assert (Henter : forall B (k1 k2 : M B) w0,
             bind (lift (getitem (success_of (PDict keys)) "success"))
               (fun ok => if truthy ok then k1 else k2) w0 = k1 w0) by reflexivity.
  rewrite !Henter. clear Henter.
  assert (Hkeys : forall B (k : pyval -> M B) w0,
             bind (lift (getitem (success_of (PDict keys)) "data")) k w0
             = k (PDict keys) w0) by reflexivity.
  rewrite !Hkeys, !AzureComposition.bind_print. clear Hkeys.
  split.
  - intros H1 H2.
    assert (G1 : get (PDict keys) "key1" (PStr "N/A") = inr (PStr "N/A"))
      by (unfold get; rewrite H1; reflexivity).
    assert (G2 : get (PDict keys) "key2" (PStr "N/A") = inr (PStr "N/A"))
      by (unfold get; rewrite H2; reflexivity).
    rewrite G1, G2. reflexivity.
  - intros value H1 Hslice.
    assert (G1 : get (PDict keys) "key1" (PStr "N/A") = inr value)
      by (unfold get; rewrite H1; reflexivity).
    rewrite G1. unfold bind at 1, lift at 1.
    unfold bind at 1, lift at 1. rewrite Hslice. reflexivity.
Qed.

Lemma absent_key_shows_as_na_example :
  get_cognitive_keys
    (Sim.azure_host (Completed 0 "{}" "") [("{}", PDict [])]) "my-ai" "my-group" start
  = (inr (PDict []),
     {| printed := [nl ++ "🔑 API Keys for my-ai:";
                    "------------------------------------------------------------";
                    "  Key1: N/A...";
                    "  Key2: N/A..."];
        spawned := [az_call ["cognitiveservices"; "account"; "keys"; "list";
                             "--name"; "my-ai"; "--resource-group"; "my-group"] true] |}).
Proof.
  pose proof (absent_key_shows_as_na
                (Sim.azure_host (Completed 0 "{}" "") [("{}", PDict [])])
                "my-ai" "my-group" start []) as H.
  cbv zeta in H. apply H; reflexivity.
Defined.

(** The loop of [get_storage_keys] stops at the first entry it cannot
    read. *)
Lemma storage_loop_stops (h : host) (shown : list pyval) (keys : list (string * string))
    (bad : pyval) (rest : list pyval) (key_name : string) (e : exn) :
  Forall2 lists_key shown keys ->
  getitem bad "keyName" = inr (PStr key_name) ->
  getitem bad "value" = inl e ->
  forall w,
    for_each (shown ++ bad :: rest) (fun key =>
      key_name <- lift (getitem key "keyName") ;;
      value <- lift (getitem key "value") ;;
      shown <- lift (slice_to 20 value) ;;
      print ("  " ++ fmt h key_name ++ ": " ++ fmt h shown ++ "...")) w
    = (inl e, {| printed := app (printed w) (map storage_line keys);
                 spawned := spawned w |}).
Proof.
  intros Hshown Hname Hvalue.
  induction Hshown as [|entry key shown keys [Hn Hv] _ IH]; intros w.
  - cbn [app for_each map]. unfold bind at 1. unfold bind at 1, lift at 1.
    rewrite Hname. unfold bind at 1, lift at 1. rewrite Hvalue.
    rewrite app_nil_r. destruct w; reflexivity.
  - cbn [app for_each map]. unfold bind at 1. unfold bind at 1, lift at 1.
    rewrite Hn. unfold bind at 1, lift at 1. rewrite Hv.
    unfold bind at 1, lift at 1. cbn [slice_to fmt print].
    rewrite IH. cbn. rewrite <- app_assoc. reflexivity.
Qed.

(** X16. A storage key listing is printed entry by entry, so an entry without
    a [value] (or whose [value] cannot be read) ends the run where it
    stands: the keys before it have been shown, [KeyError] is raised, and
    the entries after it are not shown. *)
Theorem storage_listing_stops_at_a_bad_entry (h : host) (account group : string)
    (w : world) (shown : list pyval) (keys : list (string * string))
    (bad : pyval) (rest : list pyval) (key_name : string) (e : exn) :
  result_of h ["storage"; "account"; "keys"; "list";
               "--account-name"; account; "--resource-group"; group] true w
  = success_of (PList (shown ++ bad :: rest)) ->
  Forall2 lists_key shown keys ->
  getitem bad "keyName" = inr (PStr key_name) ->
  getitem bad "value" = inl e ->
  get_storage_keys h account group w
  = (inl e,
     {| printed := app (printed w)
                     ((nl ++ "🔑 Storage Keys for " ++ account ++ ":")
                      :: str_mul "-" 60
                      :: map storage_line keys);
        spawned := app (spawned w)
                     [az_call ["storage"; "account"; "keys"; "list";
                               "--account-name"; account;
                               "--resource-group"; group] true] |}).
Proof.
  intros Hresult Hshown Hname Hvalue. unfold get_storage_keys.
  rewrite AzureComposition.bind_call, Hresult.
  unfold bind at 1, lift at 1.
  cbn [getitem assoc success_of String.eqb Ascii.eqb Bool.eqb truthy].
  unfold bind at 1, lift at 1. cbn [getitem assoc String.eqb Ascii.eqb Bool.eqb].
  rewrite !AzureComposition.bind_print.
  unfold bind at 1, lift at 1. cbn [iterate].
  unfold bind at 1.
  rewrite (storage_loop_stops h shown keys bad rest key_name e Hshown Hname Hvalue).
  cbn. rewrite <- !app_assoc. reflexivity.
Qed.

Lemma storage_listing_stops_at_a_bad_entry_example :
  get_storage_keys
    (Sim.azure_host (Completed 0 Sim.storage_text "")
       [(Sim.storage_text, PList Sim.broken_storage_value)]) "mystore" "my-group" start
  = (inl (KeyError "value"),
     {| printed := [nl ++ "🔑 Storage Keys for mystore:";
                    "------------------------------------------------------------";
                    "  key1: 0123456789abcdef0123..."];
        spawned := [az_call ["storage"; "account"; "keys"; "list";
                             "--account-name"; "mystore";
                             "--resource-group"; "my-group"] true] |}).
Proof.
  apply (storage_listing_stops_at_a_bad_entry
           (Sim.azure_host (Completed 0 Sim.storage_text "")
              [(Sim.storage_text, PList Sim.broken_storage_value)])
           "mystore" "my-group" start
           [PDict [("keyName", PStr "key1"); ("value", PStr Sim.key1)]]
           [("key1", Sim.key1)]
           (PDict [("keyName", PStr "key2")])
           [PDict [("keyName", PStr "key3"); ("value", PStr Sim.key2)]]
           "key2" (KeyError "value")).
  - reflexivity.
  - repeat constructor.
  - reflexivity.
  - reflexivity.
Defined.

(** X17. What [get_account_info] shows of a decoded account: its name,
    identifier and tenant, which must be there, and the name of its user,
    [N/A] when the account has no [user] or the user no [name].  It
    returns the account.  Without a [tenantId] the run ends in [KeyError]
    after the first two lines. *)
Theorem account_report (h : host) (w : world) (acc : list (string * pyval))
    (name id : string) :
  let heading := after_print (str_mul "-" 60)
                   (after_print (nl ++ "👤 Current Azure Account:")
                      (after_call ["account"; "show"] true w)) in
  let two_lines := after_print ("  ID: " ++ id)
                     (after_print ("  Subscription: " ++ name) heading) in
  result_of h ["account"; "show"] true w = success_of (PDict acc) ->
  assoc "name" acc = Some (PStr name) ->
  assoc "id" acc = Some (PStr id) ->
  (assoc "tenantId" acc = None ->
   get_account_info h w = (inl (KeyError "tenantId"), two_lines))
  /\ (forall tenant,
         assoc "tenantId" acc = Some (PStr tenant) ->
         (assoc "user" acc = None ->
          get_account_info h w
          = (inr (PDict acc),
             after_print "  User: N/A" (after_print ("  Tenant: " ++ tenant) two_lines)))
         /\ (forall user user_name,
                assoc "user" acc = Some (PDict user) ->
                get (PDict user) "name" (PStr "N/A") = inr (PStr user_name) ->
                get_account_info h w
                = (inr (PDict acc),
                   after_print ("  User: " ++ user_name)
                     (after_print ("  Tenant: " ++ tenant) two_lines)))).
Proof.
  cbv zeta. intros Hresult Hname Hid. unfold get_account_info.
  rewrite !AzureComposition.bind_call, Hresult.
  assert (Henter : forall B (k1 k2 : M B) w0,
             bind (lift (getitem (success_of (PDict acc)) "success"))
               (fun ok => if truthy ok then k1 else k2) w0 = k1 w0) by reflexivity.
  rewrite !Henter. clear Henter.
  assert (Hacc : forall B (k : pyval -> M B) w0,
             bind (lift (getitem (success_of (PDict acc)) "data")) k w0
             = k (PDict acc) w0) by reflexivity.
  rewrite !Hacc, !AzureComposition.bind_print. clear Hacc.
  assert (Hitem : forall key value B (k : pyval -> M B) w0,
             assoc key acc = Some value ->
             bind (lift (getitem (PDict acc) key)) k w0 = k value w0).
  { intros key value B k w0 H. unfold bind, lift, getitem. rewrite H. reflexivity. }
  rewrite !(Hitem "name" (PStr name)) by exact Hname.
  rewrite !AzureComposition.bind_print.
  rewrite !(Hitem "id" (PStr id)) by exact Hid.
  rewrite !AzureComposition.bind_print.
  cbn [fmt]. split.
  - intros Htenant. unfold bind at 1, lift at 1, getitem at 1. rewrite Htenant.
    reflexivity.
  - intros tenant Htenant. rewrite !(Hitem "tenantId" (PStr tenant)) by exact Htenant.
    rewrite !AzureComposition.bind_print. cbn [fmt]. split.
    + intros Huser. unfold bind at 1, lift at 1, get at 1. rewrite Huser.
      reflexivity.
    + intros user user_name Huser Huser_name.
      unfold bind at 1, lift at 1, get at 1. rewrite Huser.
      unfold bind at 1, lift at 1. rewrite Huser_name. reflexivity.
Qed.

Lemma account_report_example :
  let acc := [("name", PStr "Production"); ("id", PStr "1111");
              ("tenantId", PStr "9999")] in
  get_account_info (Sim.azure_host (Completed 0 "{...}" "") [("{...}", PDict acc)]) start
  = (inr (PDict acc),
     {| printed := [nl ++ "👤 Current Azure Account:";
                    "------------------------------------------------------------";
                    "  Subscription: Production";
                    "  ID: 1111";
                    "  Tenant: 9999";
                    "  User: N/A"];
        spawned := [az_call ["account"; "show"] true] |}).
Proof.
  cbv zeta.
  pose proof (account_report
                (Sim.azure_host (Completed 0 "{...}" "")
                   [("{...}", PDict [("name", PStr "Production"); ("id", PStr "1111");
                                     ("tenantId", PStr "9999")])])
                start
                [("name", PStr "Production"); ("id", PStr "1111");
                 ("tenantId", PStr "9999")]
                "Production" "1111") as H.
  cbv zeta in H.
  apply (proj2 (H eq_refl eq_refl eq_refl) "9999"); reflexivity.
Defined.

End AzureReports.

(** ** More on the browser tool *)

Module BrowserRuns.
Import Py Browser Spec.

Lemma silent_ret {A : Type} (a : A) : silent (ret a).
Proof. intros w. reflexivity. Qed.

Lemma silent_lift {A : Type} (r : result A) : silent (lift r).
Proof. intros w. reflexivity. Qed.

Lemma silent_call (h : host) (r : request) : silent (call h r).
Proof.
  intros w. unfold call. destruct (driver h (requests w) r); [reflexivity|].
  destruct r; reflexivity.
Qed.

Lemma silent_bind {A B : Type} (c : M A) (k : A -> M B) :
  silent c -> (forall a, silent (k a)) -> silent (bind c k).
Proof.
  intros Hc Hk w. specialize (Hc w). unfold bind.
  destruct (c w) as [[e|a] w1]; cbn in *; [exact Hc|].
  rewrite (Hk a w1). exact Hc.
Qed.

Lemma silent_async_with {A : Type} (h : host) (body : M A) :
  silent body -> silent (async_with_playwright h body).
Proof.
  intros Hbody w. unfold async_with_playwright.
  pose proof (silent_call h Start w) as Hstart.
  destruct (call h Start w) as [[e|v] w1]; cbn in *; [exact Hstart|].
  specialize (Hbody w1). destruct (body w1) as [r w2]. cbn in Hbody.
  pose proof (silent_call h Stop w2) as Hstop.
  destruct (call h Stop w2) as [[e|v'] w3]; cbn in *; congruence.
Qed.

(** No operation prints. *)
Lemma perform_is_silent (h : host) (op : operation) : silent (perform h op).
Proof.
  destruct op; cbn [perform];
    unfold search_google, take_screenshot, get_page_text, get_page_html,
      click_and_extract;
    apply silent_async_with;
    repeat first [ apply silent_ret | apply silent_lift | apply (silent_call h)
                 | apply silent_bind; [|intros ?] ].
Qed.

(** X18. What a command line does is decided by [operation_of]: the tool
    performs that operation and prints, as its only line, [json.dumps] of
    what the operation returned.  When the operation raises, the exception
    leaves [main] uncaught, nothing has been printed, and the process ends
    with status 1.  [search] sends all its arguments as one query, joined
    by single spaces; the other commands ignore the arguments past the
    ones they read. *)
Theorem main_performs_one_operation (h : host) (prog command : string)
    (args : list string) (w : world) (op : operation) :
  operation_of command args = Some op ->
  match perform h op w with
  | (inr v, w1) =>
      main h (prog :: command :: args) w
      = (inr tt, browser_after_print (json_dumps h v) w1)
      /\ printed (browser_after_print (json_dumps h v) w1)
         = app (printed w) [json_dumps h v]
  | (inl e, w1) =>
      main h (prog :: command :: args) w = (inl e, w1)
      /\ printed w1 = printed w
      /\ exit_status (main h (prog :: command :: args) w) = 1%Z
  end.
Proof.
  intros Hop.
  assert (Hmain : main h (prog :: command :: args) w
                  = bind (perform h op) (fun r => print (json_dumps h r)) w).
  { unfold operation_of in Hop. unfold main.
    cbn [length Nat.ltb Nat.leb nth skipn].
    destruct (command =? "search") eqn:E1.
    { destruct args as [|a0 rest]; [discriminate|]. injection Hop as <-. reflexivity. }
    destruct (command =? "screenshot") eqn:E2.
    { destruct args as [|a0 [|a1 rest]]; try discriminate. injection Hop as <-.
      reflexivity. }
    destruct (command =? "get_text") eqn:E3.
    { destruct args as [|a0 rest]; [discriminate|]. injection Hop as <-. reflexivity. }
    destruct (command =? "get_html") eqn:E4; [|discriminate].
    destruct args as [|a0 rest]; [discriminate|]. injection Hop as <-. reflexivity. }
  pose proof (perform_is_silent h op w) as Hsilent.
  rewrite Hmain. unfold bind, exit_status.
  destruct (perform h op w) as [[e|v] w1]; cbn in *.
  - repeat split. exact Hsilent.
  - split; [reflexivity|]. now rewrite Hsilent.
Qed.

Lemma main_performs_one_operation_example :
  main Sim.unreachable_host ["browser_tool.py"; "get_text"; "https://nowhere.invalid"; "x"]
    start
  = (inl (LibraryError "net::ERR_NAME_NOT_RESOLVED"),
     snd (perform Sim.unreachable_host (OpGetText "https://nowhere.invalid") start)).
Proof.
  pose proof (main_performs_one_operation Sim.unreachable_host "browser_tool.py" "get_text"
                ["https://nowhere.invalid"; "x"] start
                (OpGetText "https://nowhere.invalid") eq_refl) as H.
  exact (proj1 H).
Defined.

End BrowserRuns.

Module BrowserTrace.
Import Py Browser Spec.

Ltac answered_before :=
  let i := fresh "i" in
  let r := fresh "r" in
  let Hi := fresh "Hi" in
  let Hnth := fresh "Hnth" in
  intros i r Hi Hnth;
  do 10 (destruct i as [|i];
         [ first [ exfalso; cbn in Hi; lia
                 | cbn in Hnth; injection Hnth as <-; cbn [firstn app];
                   rewrite ?app_nil_r; eexists; eassumption ]
         | ]);
  exfalso; cbn in Hi; lia.

Ltac try_count :=
  first [ exists 1%nat; split; [reflexivity|]
        | exists 2%nat; split; [reflexivity|]
        | exists 3%nat; split; [reflexivity|]
        | exists 4%nat; split; [reflexivity|]
        | exists 5%nat; split; [reflexivity|]
        | exists 6%nat; split; [reflexivity|]
        | exists 7%nat; split; [reflexivity|]
        | exists 8%nat; split; [reflexivity|]
        | exists 9%nat; split; [reflexivity|]
        | exists 10%nat; split; [reflexivity|] ].

Ltac run_all h :=
  repeat match goal with
         | |- context [match driver h ?earlier ?r with _ => _ end] =>
             let E := fresh "Hanswer" in
             destruct (driver h earlier r) eqn:E; cbn -[slice_to firstn script]
         | |- context [match slice_to ?n ?x with _ => _ end] =>
             let E := fresh "Hslice" in
             destruct (slice_to n x) eqn:E; cbn -[slice_to firstn script]
         end.

(** X19. The requests of an operation follow its script and stop at the first
    one that raises.  For some [k], the requests made are the first [k] of
    the script, followed by the exit from the block unless entering it
    failed ([k] is 1 then); every request before the last one made was
    answered; and when the operation returns a value, all of the script
    was requested, [browser.close()] included. *)
Theorem requests_follow_the_script (h : host) (op : operation) (w : world) :
  exists k,
    requests (snd (perform h op w))
    = app (requests w)
          (app (firstn k (script op)) (if (k =? 1)%nat then [] else [Stop]))
    /\ (1 <= k <= length (script op))%nat
    /\ (forall i r, (S i < k)%nat -> nth_error (script op) i = Some r ->
                    exists v, driver h (app (requests w) (firstn i (script op))) r = inr v)
    /\ (forall v, fst (perform h op w) = inr v ->
                  k = length (script op) /\ In Close (firstn k (script op))).
Proof.
  destruct op; cbn [perform];
    unfold search_google, take_screenshot, get_page_text, get_page_html,
      click_and_extract, async_with_playwright, bind, call, lift, ret;
    cbn -[slice_to firstn script]; run_all h;
    rewrite <- ?app_assoc in *; cbn [app] in *;
    try_count;
    (split; [cbn; lia|]);
    (split; [answered_before|]);
    intros v0 Hv; cbn in Hv; try discriminate Hv;
    (split; [reflexivity | cbn; tauto]).
Qed.

End BrowserTrace.

Module BrowserResults.
Import Py Browser Spec.

Lemma str_take_all (n : nat) (s : string) :
  (String.length s <= n)%nat -> str_take n s = s.
Proof.
  revert s. induction n as [|n IH]; intros [|c s] Hlen; cbn in *; try reflexivity.
  - lia.
  - rewrite IH by lia. reflexivity.
Qed.

Ltac normalise_answers :=
  rewrite <- ?app_assoc in *; cbn [app] in *.

Ltac by_answers :=
  unfold answer; cbn [script firstn nth app]; eassumption.

(** X20. What [search_google], [take_screenshot] and [click_and_extract]
    return, whenever they return: the arguments they were given, the
    answer of the driver as it came (the search results, the text of the
    element), and the timestamp.  In particular [click_and_extract] applies
    no limit to the text it extracts. *)
Theorem results_are_passed_through (h : host) (w : world) :
  (forall query v w',
      search_google h query w = (inr v, w') ->
      exists results timestamp,
        answer h w (OpSearch query) 5 = inr results
        /\ answer h w (OpSearch query) 7 = inr timestamp
        /\ v = PDict [("query", PStr query); ("results", results);
                      ("timestamp", timestamp)])
  /\ (forall url output_path v w',
         take_screenshot h url output_path w = (inr v, w') ->
         exists timestamp,
           answer h w (OpScreenshot url output_path) 7 = inr timestamp
           /\ v = PDict [("url", PStr url); ("screenshot", PStr output_path);
                         ("timestamp", timestamp)])
  /\ (forall url click_selector extract_selector v w',
         click_and_extract h url click_selector extract_selector w = (inr v, w') ->
         exists text timestamp,
           answer h w (OpClickAndExtract url click_selector extract_selector) 7 = inr text
           /\ answer h w (OpClickAndExtract url click_selector extract_selector) 9
              = inr timestamp
           /\ v = PDict [("url", PStr url); ("clicked", PStr click_selector);
                         ("extracted", text); ("timestamp", timestamp)]).
Proof.
  split; [|split].
  - intros query v w' Hret.
    unfold search_google, async_with_playwright, bind, call, lift, ret in Hret.
    cbn in Hret. BrowserOps.run_driver Hret. normalise_answers.
    injection Hret as <- _. do 2 eexists. split; [by_answers|]. split; [by_answers|].
    reflexivity.
  - intros url output_path v w' Hret.
    unfold take_screenshot, async_with_playwright, bind, call, lift, ret in Hret.
    cbn in Hret. BrowserOps.run_driver Hret. normalise_answers.
    injection Hret as <- _. eexists. split; [by_answers | reflexivity].
  - intros url click_selector extract_selector v w' Hret.
    unfold click_and_extract, async_with_playwright, bind, call, lift, ret in Hret.
    cbn in Hret. BrowserOps.run_driver Hret. normalise_answers.
    injection Hret as <- _. do 2 eexists. split; [by_answers|]. split; [by_answers|].
    reflexivity.
Qed.

(** X21. Content within the limits comes back whole: a body text of at most
    5,000 characters and a markup of at most 10,000 are returned as they
    are, by every run that returns, and a run does return when the driver
    answers every request. *)
Theorem content_within_the_limit_is_kept (h : host) (url : string) (w : world) :
  (forall text,
      answer h w (OpGetText url) 6 = inr (PStr text) ->
      (String.length text <= 5000)%nat ->
      (forall v w', get_page_text h url w = (inr v, w') ->
                    getitem v "text" = inr (PStr text))
      /\ (never_raises h -> exists v w', get_page_text h url w = (inr v, w')))
  /\ (forall html,
         answer h w (OpGetHtml url) 5 = inr (PStr html) ->
         (String.length html <= 10000)%nat ->
         (forall v w', get_page_html h url w = (inr v, w') ->
                       getitem v "html" = inr (PStr html))
         /\ (never_raises h -> exists v w', get_page_html h url w = (inr v, w'))).
Proof.
  split.
  - intros text Hanswer Hshort. split.
    + intros v w' Hret.
      destruct (BrowserOps.get_page_text_field h url w w' v (PStr text) Hret Hanswer)
        as [limited [Hslice Hfield]].
      cbn [slice_to] in Hslice. rewrite (str_take_all 5000 text Hshort) in Hslice.
      injection Hslice as <-. exact Hfield.
    + intros Hok. exact (BrowserOps.get_page_text_returns h url w text Hok Hanswer).
  - intros html Hanswer Hshort. split.
    + intros v w' Hret.
      destruct (BrowserOps.get_page_html_field h url w w' v (PStr html) Hret Hanswer)
        as [limited [Hslice Hfield]].
      cbn [slice_to] in Hslice. rewrite (str_take_all 10000 html Hshort) in Hslice.
      injection Hslice as <-. exact Hfield.
    + intros Hok. exact (BrowserOps.get_page_html_returns h url w html Hok Hanswer).
Qed.

Lemma content_within_the_limit_is_kept_example :
  exists v w',
    get_page_text (Sim.browser_host "Example Domain" "<html></html>")
      "https://example.com" start = (inr v, w')
    /\ getitem v "text" = inr (PStr "Example Domain").
Proof.
  destruct (proj1 (content_within_the_limit_is_kept
                     (Sim.browser_host "Example Domain" "<html></html>")
                     "https://example.com" start) "Example Domain")
    as [Hfield Hreturns].
  - reflexivity.
  - apply Nat.leb_le. vm_compute. reflexivity.
  - destruct (Hreturns (BrowserOps.sim_browser_never_raises _ _)) as [v [w' E]].
    exists v, w'. split; [exact E | exact (Hfield v w' E)].
Defined.

(** A search, a screenshot and a click on a driver that answers every
    request. *)
Lemma results_are_passed_through_example :
  exists timestamp,
    answer (Sim.browser_host "" "") start (OpScreenshot "https://example.com" "out.png") 7
    = inr timestamp
    /\ fst (take_screenshot (Sim.browser_host "" "") "https://example.com" "out.png" start)
       = inr (PDict [("url", PStr "https://example.com"); ("screenshot", PStr "out.png");
                     ("timestamp", timestamp)]).
Proof.
  destruct (proj1 (proj2 (results_are_passed_through (Sim.browser_host "" "") start))
              "https://example.com" "out.png"
              (PDict [("url", PStr "https://example.com"); ("screenshot", PStr "out.png");
                      ("timestamp", PStr "2024-01-01T00:00:00")])
              (snd (take_screenshot (Sim.browser_host "" "") "https://example.com"
                      "out.png" start)))
    as [timestamp [Hanswer Hv]].
  - reflexivity.
  - exists timestamp. split; [exact Hanswer|]. rewrite <- Hv. reflexivity.
Defined.

End BrowserResults.
